(** * start_local.py: port selection, server start-up and shutdown

    A shallow embedding of [start_local.py].  The script talks to the
    operating system (sockets, the working directory, standard output, a
    background thread, the interrupt signal), so the embedding is a state
    and exception monad over a small model of that environment.  Every
    function of the script is a definition of the same name below; the
    library calls it makes ([socket.bind], [contextlib.closing],
    [ThreadingHTTPServer], [send_header], ...) are the primitives of the
    monad. *)

From Stdlib Require Import ZArith String Ascii List Bool Lia.
From stdpp Require Import base list strings pretty.

Local Open Scope Z_scope.

(** ** The environment *)

(** Exceptions the script can meet.  [OverflowError] is what
    [socket.bind] raises for a port outside 0..65535; it is not an
    [OSError]. *)
Inductive exn := OSError | OverflowError | KeyboardInterrupt.

Global Instance exn_eq_dec : EqDecision exn.
Proof. solve_decision. Defined.

(** A socket of this process: its bound name, if any, and whether it is
    still open. *)
Record socket := Socket {
  sock_name : option (string * Z);
  sock_open : bool
}.

(** What the script does to the outside world, in order. *)
Inductive event :=
| EvChdir (dir : string)
| EvSocket (fd : nat)
| EvBind (fd : nat) (host : string) (port : Z)
| EvListen (fd : nat)
| EvClose (fd : nat)
| EvPrint (text : string)
| EvThreadStart (fd : nat)
| EvBrowserOpen (url : string)
| EvJoin
| EvShutdown (fd : nat)
| EvFileRead (path : string)
| EvFileWrite (path : string)
| EvArgparse (status : Z).

(** When the user's interrupt reaches the main thread, from the start of
    the server thread on: while the thread is being started (line 70,
    before the [try]), while the browser is being opened or during the
    join (both inside the [try]), or never. *)
Inductive interrupt_point :=
| InterruptInThreadStart
| InterruptInBrowserOpen
| InterruptInJoin
| NoInterrupt.

Record world := World {
  refused : Z -> bool;        (* loopback ports the kernel will not give us *)
  ephemeral : list Z;         (* the kernel's next answers to a bind on port 0 *)
  script_abspath : string;    (* os.path.abspath(__file__) *)
  interrupt : interrupt_point;
  sockets : list socket;      (* descriptor table, indexed by fd *)
  cwd : string;
  trace : list event
}.

Definition set_sockets (f : list socket -> list socket) (w : world) : world :=
  World (refused w) (ephemeral w) (script_abspath w) (interrupt w)
        (f (sockets w)) (cwd w) (trace w).

Definition set_ephemeral (es : list Z) (w : world) : world :=
  World (refused w) es (script_abspath w) (interrupt w)
        (sockets w) (cwd w) (trace w).

Definition set_cwd (d : string) (w : world) : world :=
  World (refused w) (ephemeral w) (script_abspath w) (interrupt w)
        (sockets w) d (trace w).

Definition log (e : event) (w : world) : world :=
  World (refused w) (ephemeral w) (script_abspath w) (interrupt w)
        (sockets w) (cwd w) (trace w ++ [e]).

(** ** The monad: state, exceptions, and a main thread that may block *)

Inductive outcome (A : Type) :=
| Ret (a : A)
| Raise (e : exn)
| Hang.
Arguments Ret {A} a.
Arguments Raise {A} e.
Arguments Hang {A}.

Definition M (A : Type) : Type := world -> outcome A * world.

Global Instance M_ret : MRet M := fun A a w => (Ret a, w).

Global Instance M_bind : MBind M := fun A B f m w =>
  match m w with
  | (Ret a, w') => f a w'
  | (Raise e, w') => (Raise e, w')
  | (Hang, w') => (Hang, w')
  end.

Definition raise {A} (e : exn) : M A := fun w => (Raise e, w).

(** [try: body except e: handler] *)
Definition try_except {A} (body : M A) (e : exn) (handler : M A) : M A :=
  fun w =>
    match body w with
    | (Raise e', w') => if decide (e' = e) then handler w' else (Raise e', w')
    | r => r
    end.

(** [try: body finally: cleanup].  The clean-up runs on a return and on an
    exception; an exception of the clean-up replaces the body's result. *)
Definition finally {A} (body : M A) (cleanup : M unit) : M A :=
  fun w =>
    match body w with
    | (Hang, w') => (Hang, w')
    | (r, w') =>
        match cleanup w' with
        | (Ret _, w'') => (r, w'')
        | (Raise e, w'') => (Raise e, w'')
        | (Hang, w'') => (Hang, w'')
        end
    end.

(** [try: body except: cleanup; raise] *)
Definition on_exception {A} (body : M A) (cleanup : M unit) : M A :=
  fun w =>
    match body w with
    | (Raise e, w') => (cleanup ;; raise e) w'
    | r => r
    end.

(** ** Sockets *)

Definition LOOPBACK : string := "127.0.0.1".

Definition name_eqb (n : option (string * Z)) (host : string) (port : Z) : bool :=
  match n with
  | Some (h, p) => bool_decide (h = host) && (p =? port)
  | None => false
  end.

(** Does this process itself hold an open socket on [host:port]? *)
Definition own_bound (w : world) (host : string) (port : Z) : bool :=
  existsb (fun s => sock_open s && name_eqb (sock_name s) host port) (sockets w).

(** [socket.socket(AF_INET, SOCK_STREAM)] *)
Definition socket_new : M nat := fun w =>
  let fd := length (sockets w) in
  (Ret fd, log (EvSocket fd) (set_sockets (fun l => l ++ [Socket None true]) w)).

(** [s.bind((host, port))].  The port is range-checked before the system
    call; the kernel then refuses a closed or already bound socket and a
    port that is taken, and picks the port itself when asked for 0. *)
Definition bind (fd : nat) (host : string) (port : Z) : M unit := fun w =>
  let w := log (EvBind fd host port) w in
  if (port <? 0) || (65535 <? port) then (Raise OverflowError, w)
  else
    match sockets w !! fd with
    | Some (Socket None true) =>
        if port =? 0 then
          match ephemeral w with
          | e :: es =>
              (Ret tt, set_ephemeral es
                 (set_sockets (<[fd := Socket (Some (host, e)) true]>) w))
          | [] => (Raise OSError, w)
          end
        else if refused w port || own_bound w host port then (Raise OSError, w)
        else (Ret tt, set_sockets (<[fd := Socket (Some (host, port)) true]>) w)
    | _ => (Raise OSError, w)
    end.

(** [s.getsockname()[1]] *)
Definition getsockname_port (fd : nat) : M Z := fun w =>
  match sockets w !! fd with
  | Some (Socket n true) =>
      (Ret match n with Some (_, p) => p | None => 0 end, w)
  | _ => (Raise OSError, w)
  end.

(** [s.listen()] *)
Definition listen (fd : nat) : M unit := fun w =>
  let w := log (EvListen fd) w in
  match sockets w !! fd with
  | Some (Socket _ true) => (Ret tt, w)
  | _ => (Raise OSError, w)
  end.

(** [s.close()]; closing twice is harmless. *)
Definition close (fd : nat) : M unit := fun w =>
  (Ret tt, log (EvClose fd)
     (set_sockets (fun l =>
        match l !! fd with
        | Some s => <[fd := Socket (sock_name s) false]> l
        | None => l
        end) w)).

(** [with contextlib.closing(s): body] *)
Definition closing {A} (fd : nat) (body : M A) : M A :=
  finally body (close fd).

(** ** Port selection *)

(** [range(lo, hi)] *)
Definition range (lo hi : Z) : list Z :=
  map (fun i => lo + Z.of_nat i) (seq 0 (Z.to_nat (hi - lo))).

(** The body of the [for] loop: [Some p] is [return p], [None] is
    [continue]. *)
Definition probe (p : Z) : M (option Z) :=
  s ← socket_new;
  closing s (try_except (bind s LOOPBACK p ;; mret (Some p)) OSError (mret None)).

Fixpoint for_ports (ps : list Z) : M Z :=
  match ps with
  | [] => mret 0
  | p :: ps' =>
      r ← probe p;
      match r with
      | Some q => mret q
      | None => for_ports ps'
      end
  end.

Definition find_free_port (preferred : Z) : M Z :=
  if preferred =? 0 then
    s ← socket_new;
    closing s (bind s LOOPBACK 0 ;; getsockname_port s)
  else
    for_ports (preferred :: range 8001 8011).


(** ** Server start-up *)

(** [ThreadingHTTPServer((host, port), NoCacheRequestHandler)]: the
    constructor makes the listening socket, binds it and starts listening;
    if that fails it closes the socket and lets the exception through.
    [server_address] is then what [getsockname] reports. *)
Definition ThreadingHTTPServer (host : string) (port : Z) : M (nat * Z) :=
  s ← socket_new;
  on_exception (bind s host port ;; listen s) (close s) ;;
  a ← getsockname_port s;
  mret (s, a).

Definition serve (port : Z) : M (nat * string) :=
  '(server, server_port) ← ThreadingHTTPServer LOOPBACK port;
  let url := "http://127.0.0.1:" +:+ pretty server_port +:+ "/index.html" in
  mret (server, url).

(** ** The working directory *)

Definition SEP : ascii := "/"%char.

(** [p.rfind('/') + 1] *)
Fixpoint rfind_sep_end (p : string) : nat :=
  match p with
  | EmptyString => O
  | String c p' =>
      match rfind_sep_end p' with
      | O => if Ascii.eqb c SEP then 1%nat else O
      | S n => S (S n)
      end
  end.

(** [head == '/' * len(head)] *)
Fixpoint all_sep (s : string) : bool :=
  match s with
  | EmptyString => true
  | String c s' => Ascii.eqb c SEP && all_sep s'
  end.

(** [head.rstrip('/')] *)
Fixpoint rstrip_sep (s : string) : string :=
  match s with
  | EmptyString => EmptyString
  | String c s' =>
      match rstrip_sep s' with
      | EmptyString => if Ascii.eqb c SEP then EmptyString else String c EmptyString
      | t => String c t
      end
  end.

(** [os.path.dirname] (posixpath) *)
Definition dirname (p : string) : string :=
  let head := String.substring 0 (rfind_sep_end p) p in
  if negb (String.eqb head "") && negb (all_sep head) then rstrip_sep head
  else head.

(** [os.chdir] *)
Definition chdir (d : string) : M unit := fun w =>
  (Ret tt, log (EvChdir d) (set_cwd d w)).

(** [os.path.abspath(__file__)] *)
Definition abspath_file : M string := fun w => (Ret (script_abspath w), w).

(** ** The main routine *)

Definition NL : string := String (ascii_of_nat 10) EmptyString.

(** [print(text)] *)
Definition print (text : string) : M unit := fun w =>
  (Ret tt, log (EvPrint text) w).

(** [threading.Thread(target=httpd.serve_forever, daemon=True).start()] *)
Definition thread_start (httpd : nat) : M unit := fun w =>
  let w := log (EvThreadStart httpd) w in
  match interrupt w with
  | InterruptInThreadStart => (Raise KeyboardInterrupt, w)
  | _ => (Ret tt, w)
  end.

(** [webbrowser.open(url, new=2)] *)
Definition webbrowser_open (url : string) : M unit := fun w =>
  let w := log (EvBrowserOpen url) w in
  match interrupt w with
  | InterruptInBrowserOpen => (Raise KeyboardInterrupt, w)
  | _ => (Ret tt, w)
  end.

(** [thread.join()] on the server thread, which serves for ever: the call
    ends only when the interrupt arrives. *)
Definition thread_join : M unit := fun w =>
  let w := log EvJoin w in
  match interrupt w with
  | InterruptInJoin => (Raise KeyboardInterrupt, w)
  | _ => (Hang, w)
  end.

(** [httpd.shutdown()] *)
Definition shutdown (httpd : nat) : M unit := fun w =>
  (Ret tt, log (EvShutdown httpd) w).

(** [httpd.server_close()] closes the listening socket. *)
Definition server_close (httpd : nat) : M unit := close httpd.

(** [args.port] for a command line that argparse accepted: the int given
    with [--port], 8000 when the option is absent.  What argparse does
    with the other command lines is in [start_local] below. *)
Definition parse_args (argv_port : option Z) : Z := default 8000 argv_port.

Definition main (argv_port : option Z) : M Z :=
  let args_port := parse_args argv_port in
  script ← abspath_file;
  chdir (dirname script) ;;
  port ← find_free_port args_port;
  '(httpd, url) ← serve port;
  print ("Serving at: http://127.0.0.1:" +:+ pretty port) ;;
  print ("Homepage:   " +:+ url) ;;
  thread_start httpd ;;
  finally
    (try_except (webbrowser_open url ;; thread_join)
                KeyboardInterrupt
                (print (NL +:+ "Shutting down...")))
    (shutdown httpd ;; server_close httpd) ;;
  mret 0.

(** How the process ends: [raise SystemExit(main())]. *)
Inductive termination :=
| Exit (status : Z)
| Traceback (e : exn)
| Blocked.

Definition run_script (argv_port : option Z) (w : world) : termination * world :=
  match main argv_port w with
  | (Ret status, w') => (Exit status, w')
  | (Raise e, w') => (Traceback e, w')
  | (Hang, w') => (Blocked, w')
  end.

(** What argparse makes of the command line, which it does before
    anything else in [main]: it accepts it (no option, or [--port] with an
    int), or it prints the usage for [-h] or [--help] and exits with
    status 0, or it rejects it (an unknown argument, a [--port] value that
    is not an int), prints its message and exits with status 2. *)
Inductive command_line :=
| Accepted (argv_port : option Z)
| HelpRequested
| Rejected.

(** The script as the shell runs it. *)
Definition start_local (c : command_line) (w : world) : termination * world :=
  match c with
  | Accepted argv_port => run_script argv_port w
  | HelpRequested => (Exit 0, log (EvArgparse 0) w)
  | Rejected => (Exit 2, log (EvArgparse 2) w)
  end.

(** What was written to standard output, and its lines. *)
Definition output (tr : list event) : string :=
  fold_right (fun e acc =>
      match e with
      | EvPrint text => text +:+ NL +:+ acc
      | _ => acc
      end) EmptyString tr.

Definition stdout (w : world) : string := output (trace w).

Fixpoint lines (s : string) : list string :=
  match s with
  | EmptyString => [EmptyString]
  | String c s' =>
      if Ascii.eqb c (ascii_of_nat 10) then EmptyString :: lines s'
      else match lines s' with
           | l :: ls => String c l :: ls
           | [] => [String c EmptyString]
           end
  end.

(** ** The request handler *)

(** [NoCacheRequestHandler] overrides [end_headers] and inherits the rest
    from the standard library's [SimpleHTTPRequestHandler].  The inherited
    methods are given here as [http/server.py] has them, for a request
    line that [parse_request] accepts up to its check of the words, on a
    path that is not a directory; an error page is stood for by its
    message. *)
Module Http.

Definition CRLF : string :=
  String (ascii_of_nat 13) (String (ascii_of_nat 10) EmptyString).

(** [default_request_version]: what [request_version] is until a request
    line with a version has been parsed. *)
Definition default_request_version : string := "HTTP/0.9".

(** The part of a handler object the script touches: the request version,
    the header lines buffered for the response under way, and what has
    gone out on the connection. *)
Record handler := Handler {
  request_version : string;
  headers_buffer : list string;
  wfile : list string
}.

(** [send_response_only(code, message)]: the status line, unless the
    request is an HTTP/0.9 one. *)
Definition send_response_only (code message : string) (h : handler) : handler :=
  if String.eqb (request_version h) "HTTP/0.9" then h
  else Handler (request_version h)
         (headers_buffer h ++ ["HTTP/1.0 " +:+ code +:+ " " +:+ message +:+ CRLF])
         (wfile h).

(** [send_header(keyword, value)] adds one line to the buffer, unless the
    request is an HTTP/0.9 one. *)
Definition send_header (keyword value : string) (h : handler) : handler :=
  if String.eqb (request_version h) "HTTP/0.9" then h
  else Handler (request_version h)
         (headers_buffer h ++ [keyword +:+ ": " +:+ value +:+ CRLF])
         (wfile h).

(** [flush_headers()] *)
Definition flush_headers (h : handler) : handler :=
  Handler (request_version h) [] (wfile h ++ headers_buffer h).

(** [BaseHTTPRequestHandler.end_headers()]: the blank line, then flush,
    unless the request is an HTTP/0.9 one. *)
Definition base_end_headers (h : handler) : handler :=
  if String.eqb (request_version h) "HTTP/0.9" then h
  else flush_headers
         (Handler (request_version h) (headers_buffer h ++ [CRLF]) (wfile h)).

(** [send_response(code, message)]: status line, [Server] and [Date]. *)
Definition send_response (code message version date : string) (h : handler) : handler :=
  send_header "Date" date
    (send_header "Server" version (send_response_only code message h)).

(** [wfile.write(data)] *)
Definition write (data : string) (h : handler) : handler :=
  Handler (request_version h) (headers_buffer h) (wfile h ++ [data]).

(** A handler class is known here by the one method the script
    overrides; the inherited code calls it through [self]. *)
Class HandlerClass := { end_headers : handler -> handler }.

Definition SimpleHTTPRequestHandler : HandlerClass :=
  {| end_headers := base_end_headers |}.

Definition NoCacheRequestHandler : HandlerClass :=
  {| end_headers h :=
       let h := send_header "Cache-Control"
                  "no-store, no-cache, must-revalidate, max-age=0" h in
       let h := send_header "Pragma" "no-cache" h in
       base_end_headers h |}.

(** A regular file under the served directory. *)
Record file := File {
  f_ctype : string;
  f_mtime : string;
  f_body : string
}.

(** A request: the words of its request line, two of them (command and
    path, the HTTP/0.9 form) or three (with a version that
    [parse_request] accepts), and what else the answer depends on. *)
Record request := Request {
  command : string;
  path : string;
  version_word : option string;
  server_version : string;   (* version_string(), for the Server header *)
  date : string;             (* the server's clock, for the Date header *)
  not_modified : bool        (* If-Modified-Since is at or after the file's time *)
}.

Record response := Response {
  sent : list string;        (* what went out on the connection, in order *)
  fs_events : list event     (* what the handler did to the file system *)
}.

Section Inherited.
Context (cls : HandlerClass).
(** The served directory: which request paths name a regular file. *)
Context (files : string -> option file).

(** [send_error(code, message)]; [self_command] is [self.command] at the
    time of the call, [None] while the request line is being parsed. *)
Definition send_error (code message : string) (body : string)
           (self_command : option string) (r : request) (h : handler) : handler :=
  let h := send_response code message (server_version r) (date r) h in
  let h := send_header "Connection" "close" h in
  let h := send_header "Content-Type" "text/html;charset=utf-8" h in
  let h := send_header "Content-Length" (pretty (Z.of_nat (String.length body))) h in
  let h := end_headers h in
  match self_command with
  | Some c => if String.eqb c "HEAD" then h else write body h
  | None => write body h
  end.

(** [send_head()] for a path that is not a directory. *)
Definition send_head (r : request) (h : handler) : handler * option file :=
  match files (path r) with
  | None =>
      (send_error "404" "File not found" "File not found" (Some (command r)) r h,
       None)
  | Some f =>
      if not_modified r then
        (end_headers
           (send_response "304" "Not Modified" (server_version r) (date r) h),
         None)
      else
        let h := send_response "200" "OK" (server_version r) (date r) h in
        let h := send_header "Content-type" (f_ctype f) h in
        let h := send_header "Content-Length"
                   (pretty (Z.of_nat (String.length (f_body f)))) h in
        let h := send_header "Last-Modified" (f_mtime f) h in
        (end_headers h, Some f)
  end.

Definition opened (r : request) : list event :=
  match files (path r) with
  | Some _ => [EvFileRead (path r)]
  | None => []
  end.

(** [do_GET()] *)
Definition do_GET (r : request) (h : handler) : handler * list event :=
  match send_head r h with
  | (h, Some f) => (write (f_body f) h, opened r)
  | (h, None) => (h, opened r)
  end.

(** [do_HEAD()] *)
Definition do_HEAD (r : request) (h : handler) : handler * list event :=
  (fst (send_head r h), opened r).

(** [handle_one_request()].  [parse_request] sets [request_version] from
    the third word and turns away a two-word request line whose command
    is not GET; then the request is dispatched on [do_<command>], and the
    class has [do_GET] and [do_HEAD] and nothing else. *)
Definition handle_one_request (r : request) : response :=
  let h0 :=
    Handler (from_option id default_request_version (version_word r)) [] [] in
  let '(h, evs) :=
    match version_word r with
    | None =>
        if String.eqb (command r) "GET" then do_GET r h0
        else (send_error "400" "Bad HTTP/0.9 request type"
                "Bad HTTP/0.9 request type" None r h0, [])
    | Some _ =>
        if String.eqb (command r) "GET" then do_GET r h0
        else if String.eqb (command r) "HEAD" then do_HEAD r h0
        else (send_error "501" "Unsupported method" "Unsupported method"
                (Some (command r)) r h0, [])
    end
  in Response (wfile h) evs.
End Inherited.

Definition CACHE_CONTROL_LINE : string :=
  "Cache-Control: no-store, no-cache, must-revalidate, max-age=0" +:+ CRLF.

Definition PRAGMA_LINE : string := "Pragma: no-cache" +:+ CRLF.

(** The header lines of a response: what is sent before the blank line. *)
Fixpoint header_block (out : list string) : list string :=
  match out with
  | [] => []
  | x :: out' => if String.eqb x CRLF then [] else x :: header_block out'
  end.

(** A served directory with one page, and requests for it: with a
    version, without one, and a two-word POST. *)
Definition site (p : string) : option file :=
  if String.eqb p "/index.html"
  then Some (File "text/html" "Mon, 01 Jan 2024 00:00:00 GMT" "<html></html>")
  else None.

Definition get_index : request :=
  Request "GET" "/index.html" (Some "HTTP/1.1") "SimpleHTTP/0.6 Python/3.12.0"
          "Mon, 01 Jan 2024 00:00:01 GMT" false.

Definition get_index_simple : request :=
  Request "GET" "/index.html" None "SimpleHTTP/0.6 Python/3.12.0"
          "Mon, 01 Jan 2024 00:00:01 GMT" false.

Definition post_index_simple : request :=
  Request "POST" "/index.html" None "SimpleHTTP/0.6 Python/3.12.0"
          "Mon, 01 Jan 2024 00:00:01 GMT" false.

End Http.

(** * The vocabulary of the statements *)

(** Is [s] an open socket bound to [host:port]? *)
Definition held (host : string) (port : Z) (s : socket) : bool :=
  sock_open s && name_eqb (sock_name s) host port.

(** The outcome of [s.bind(("127.0.0.1", p))] on a fresh socket. *)
Definition bind_result (w : world) (p : Z) : outcome unit :=
  fst ((s ← socket_new; bind s LOOPBACK p) w).

(** Does it succeed? *)
Definition binds (w : world) (p : Z) : bool :=
  match bind_result w p with
  | Ret _ => true
  | _ => false
  end.

(** The world a probe of a port other than 0 leaves behind: one more
    socket in the table, closed, and three more events. *)
Definition after_probe (w : world) (p : Z) : world :=
  let fd := length (sockets w) in
  World (refused w) (ephemeral w) (script_abspath w) (interrupt w)
        (sockets w ++ [Socket (if binds w p then Some (LOOPBACK, p) else None) false])
        (cwd w)
        (trace w ++ [EvSocket fd; EvBind fd LOOPBACK p; EvClose fd]).

(** What the loop returns, read off the outcomes of the binds. *)
Fixpoint scan_result (w : world) (ps : list Z) : outcome Z :=
  match ps with
  | [] => Ret 0
  | p :: ps' =>
      match bind_result w p with
      | Ret _ => Ret p
      | Raise OSError => scan_result w ps'
      | Raise e => Raise e
      | Hang => Hang
      end
  end.

(** A socket that has been closed. *)
Definition closed (s : socket) : Prop := sock_open s = false.

(** A relation between the world before and after that is reflexive and
    transitive is kept by a whole routine once each primitive keeps it. *)
Definition respects (R : relation world) {A} (m : M A) : Prop :=
  ∀ w, R w (snd (m w)).

(** The trace only grows, and by events that satisfy [P]. *)
Definition emits (P : event → Prop) (w w' : world) : Prop :=
  ∃ evs, trace w' = trace w ++ evs ∧ Forall P evs.

(** The working directory stays what it is. *)
Definition same_cwd (w w' : world) : Prop := cwd w' = cwd w.

(** What [main] does once the server is constructed. *)
Definition run_server (port : Z) (httpd : nat) (url : string) : M Z :=
  print ("Serving at: http://127.0.0.1:" +:+ pretty port) ;;
  print ("Homepage:   " +:+ url) ;;
  thread_start httpd ;;
  finally
    (try_except (webbrowser_open url ;; thread_join)
                KeyboardInterrupt
                (print (NL +:+ "Shutting down...")))
    (shutdown httpd ;; server_close httpd) ;;
  mret 0.

(** What [main] does once the working directory is set. *)
Definition after_chdir (args_port : Z) : M Z :=
  port ← find_free_port args_port;
  '(httpd, url) ← serve port;
  run_server port httpd url.

(** Every event of a run of [after_chdir] is one of these. *)
Definition after_chdir_event (e : event) : Prop :=
  match e with
  | EvSocket _ | EvListen _ | EvClose _ | EvPrint _ | EvThreadStart _
  | EvBrowserOpen _ | EvJoin | EvShutdown _ => True
  | EvBind _ host _ => host = LOOPBACK
  | EvChdir _ | EvFileRead _ | EvFileWrite _ | EvArgparse _ => False
  end.

(** Worlds to run the script in.  In the first, nothing else listens on
    loopback. *)
Definition quiet : world :=
  World (fun _ => false) [49152; 49153] "/home/dev/site/start_local.py"
        InterruptInJoin [] "/home/dev" [].

(** Ports 8000 to 8003 are taken. *)
Definition busy : world :=
  World (fun p => (8000 <=? p) && (p <=? 8003)) [49152; 49153]
        "/home/dev/site/start_local.py" InterruptInJoin [] "/home/dev" [].

(** Ports 8000 to 8010 are all taken. *)
Definition crowded : world :=
  World (fun p => (8000 <=? p) && (p <=? 8010)) [49152; 49153]
        "/home/dev/site/start_local.py" InterruptInJoin [] "/home/dev" [].

(** The same, and no interrupt ever comes. *)
Definition crowded_running : world :=
  World (fun p => (8000 <=? p) && (p <=? 8010)) [49152; 49153]
        "/home/dev/site/start_local.py" NoInterrupt [] "/home/dev" [].

(** Nothing else listens on loopback, and the interrupt comes while the
    server thread is being started. *)
Definition interrupted_early : world :=
  World (fun _ => false) [49152; 49153] "/home/dev/site/start_local.py"
        InterruptInThreadStart [] "/home/dev" [].

(** The kernel answers a bind on port 0 with a port of its own choice,
    which is a valid port number. *)
Definition kernel_assigns_ports (w : world) : Prop :=
  ephemeral w ≠ [] ∧ Forall (fun e => 0 < e <= 65535) (ephemeral w).

(** The URL [serve] builds for a server bound to [port]. *)
Definition homepage (port : Z) : string :=
  "http://127.0.0.1:" +:+ pretty port +:+ "/index.html".

(** The world after the server constructor: one more socket, listening on
    [name] if the bind went through, closed if it did not. *)
Definition after_server (w : world) (port : Z) (es : list Z) (s : socket)
    (last : event) : world :=
  let fd := length (sockets w) in
  World (refused w) es (script_abspath w) (interrupt w)
        (sockets w ++ [s]) (cwd w)
        (trace w ++ [EvSocket fd; EvBind fd LOOPBACK port; last]).

(** The interrupt to come is not the script's to change. *)
Definition same_interrupt (w w' : world) : Prop := interrupt w' = interrupt w.

(** A bind, if the event is one, names the loopback address. *)
Definition bind_on_loopback (e : event) : Prop :=
  match e with
  | EvBind _ host _ => host = "127.0.0.1"
  | _ => True
  end.

(** The descriptor table after [close] of [fd]. *)
Definition close_fd (fd : nat) (l : list socket) : list socket :=
  match l !! fd with
  | Some s => <[fd := Socket (sock_name s) false]> l
  | None => l
  end.

(** The events of [main] between the construction of the server and the
    wait, and those of an interrupted run's end. *)
Definition startup_lines (port : Z) (httpd : nat) (url : string) : list event :=
  [EvPrint ("Serving at: http://127.0.0.1:" +:+ pretty port);
   EvPrint ("Homepage:   " +:+ url);
   EvThreadStart httpd;
   EvBrowserOpen url].

Definition shutdown_events (httpd : nat) : list event :=
  [EvPrint (NL +:+ "Shutting down..."); EvShutdown httpd; EvClose httpd].

(** Start-up went through: port selection returned [port] and the server
    was constructed, with handle [httpd], homepage [url], in world [w2]. *)
Definition started (argv_port : option Z) (w : world)
    (port : Z) (httpd : nat) (url : string) (w2 : world) : Prop :=
  ∃ w1,
    find_free_port (parse_args argv_port)
      (snd (chdir (dirname (script_abspath w)) w)) = (Ret port, w1)
    ∧ serve port w1 = (Ret (httpd, url), w2).

(** No separator in a file name. *)
Fixpoint free_of_sep (s : string) : bool :=
  match s with
  | EmptyString => true
  | String c s' => negb (Ascii.eqb c SEP) && free_of_sep s'
  end.

(** A directory name as [abspath] gives it: not empty, no slash at the
    end. *)
Definition is_directory_name (dir : string) : Prop :=
  dir ≠ EmptyString ∧ rstrip_sep dir = dir.

(** After the first step of [main] nothing changes the directory and
    nothing writes a file. *)
Definition leaves_files_alone (e : event) : Prop :=
  match e with
  | EvChdir _ | EvFileWrite _ => False
  | _ => True
  end.

(** An event of a socket's life before it listens: made, bound, closed. *)
Definition socket_event (e : event) : Prop :=
  match e with
  | EvSocket _ | EvBind _ _ _ | EvClose _ => True
  | _ => False
  end.

(** How a result of [main] ends the process. *)
Definition ending (r : outcome Z) : termination :=
  match r with
  | Ret status => Exit status
  | Raise e => Traceback e
  | Hang => Blocked
  end.

(** How many times a line occurs among the lines [l]. *)
Fixpoint occurrences (x : string) (l : list string) : nat :=
  match l with
  | [] => O
  | y :: l' => ((if String.eqb x y then 1 else 0) + occurrences x l')%nat
  end.

(** * Properties *)

Ltac munfold :=
  unfold closing, finally, on_exception, try_except, raise,
    mbind, M_bind, mret, M_ret in *.

Ltac wsimpl :=
  unfold log, set_sockets, set_ephemeral, set_cwd; simpl.

(** ** The descriptor table *)

Section Table.
Implicit Types (l : list socket) (s : socket).

Lemma lookup_snoc l s : (l ++ [s]) !! length l = Some s.
Proof. by apply list_lookup_middle. Qed.

Lemma insert_snoc l s s' : <[length l := s']> (l ++ [s]) = l ++ [s'].
Proof.
  rewrite insert_app_r_alt by lia.
  by rewrite Nat.sub_diag.
Qed.
End Table.

(** ** One probe *)

Lemma bind_result_eq w p :
  bind_result w p =
    if (p <? 0) || (65535 <? p) then Raise OverflowError
    else if p =? 0 then
      match ephemeral w with
      | _ :: _ => Ret tt
      | [] => Raise OSError
      end
    else if refused w p || own_bound w LOOPBACK p then Raise OSError
    else Ret tt.
Proof.
  unfold bind_result, socket_new, bind; munfold; simpl.
  destruct ((p <? 0) || (65535 <? p)); [done|].
  rewrite lookup_snoc.
  destruct (p =? 0); [by destruct (ephemeral w)|].
  replace (own_bound _ LOOPBACK p) with (own_bound w LOOPBACK p).
  - by destruct (refused w p || own_bound w LOOPBACK p).
  - unfold own_bound; simpl. rewrite existsb_app; simpl.
    by rewrite !orb_false_r.
Qed.

Lemma probe_eq w p :
  p ≠ 0 →
  probe p w =
    (match bind_result w p with
     | Ret _ => Ret (Some p)
     | Raise OSError => Ret None
     | Raise e => Raise e
     | Hang => Hang
     end, after_probe w p).
Proof.
  intros Hp. apply Z.eqb_neq in Hp.
  unfold after_probe, binds. rewrite bind_result_eq.
  unfold probe, socket_new, bind, close, log, set_sockets; munfold; simpl.
  rewrite Hp.
  destruct ((p <? 0) || (65535 <? p)); wsimpl.
  { rewrite lookup_snoc, insert_snoc, <- !app_assoc. done. }
  rewrite lookup_snoc.
  replace (own_bound _ LOOPBACK p) with (own_bound w LOOPBACK p).
  2:{ unfold own_bound; simpl. rewrite existsb_app; simpl.
      by rewrite !orb_false_r. }
  destruct (refused w p || own_bound w LOOPBACK p); wsimpl.
  - rewrite lookup_snoc, insert_snoc, <- !app_assoc. done.
  - rewrite insert_snoc, lookup_snoc, insert_snoc, <- !app_assoc. done.
Qed.

Lemma bind_result_after_probe w p q :
  bind_result (after_probe w p) q = bind_result w q.
Proof.
  rewrite !bind_result_eq.
  replace (own_bound (after_probe w p) LOOPBACK q) with (own_bound w LOOPBACK q).
  - done.
  - unfold own_bound, after_probe; simpl. rewrite existsb_app; simpl.
    by rewrite orb_false_r.
Qed.

Lemma binds_after_probe w p q : binds (after_probe w p) q = binds w q.
Proof. unfold binds. by rewrite bind_result_after_probe. Qed.

(** ** The scan *)

Lemma scan_result_after_probe w p ps :
  scan_result (after_probe w p) ps = scan_result w ps.
Proof.
  induction ps as [|q ps IH]; simpl; [done|].
  by rewrite bind_result_after_probe, IH.
Qed.

Lemma for_ports_result ps :
  Forall (fun p => p ≠ 0) ps →
  ∀ w, fst (for_ports ps w) = scan_result w ps.
Proof.
  induction 1 as [|p ps Hp _ IH]; intros w; simpl; [done|].
  unfold mbind, M_bind. rewrite (probe_eq w p Hp).
  destruct (bind_result w p) as [[]|[]|]; simpl; try done.
  by rewrite IH, scan_result_after_probe.
Qed.

Lemma for_ports_sockets ps :
  Forall (fun p => p ≠ 0) ps →
  ∀ w, ∃ new, sockets (snd (for_ports ps w)) = sockets w ++ new
              ∧ Forall closed new.
Proof.
  induction 1 as [|p ps Hp _ IH]; intros w; simpl.
  { exists []. by rewrite app_nil_r. }
  unfold mbind, M_bind. rewrite (probe_eq w p Hp).
  set (s := Socket (if binds w p then Some (LOOPBACK, p) else None) false).
  destruct (bind_result w p) as [[]|[]|]; simpl;
    try (exists [s]; split; [done | by repeat constructor]).
  destruct (IH (after_probe w p)) as (new & -> & Hnew).
  exists (s :: new); simpl. split.
  - by rewrite <- app_assoc.
  - by constructor.
Qed.

Lemma for_ports_environment ps :
  Forall (fun p => p ≠ 0) ps →
  ∀ w, refused (snd (for_ports ps w)) = refused w
       ∧ ephemeral (snd (for_ports ps w)) = ephemeral w.
Proof.
  induction 1 as [|p ps Hp _ IH]; intros w; simpl; [done|].
  unfold mbind, M_bind. rewrite (probe_eq w p Hp).
  destruct (bind_result w p) as [[]|[]|]; simpl; try done.
  apply (IH (after_probe w p)).
Qed.

(** A port of the fallback range either binds or is refused with
    [OSError]: it is never out of range, and never 0. *)
Lemma scan_result_valid w ps :
  Forall (fun p => 0 < p <= 65535) ps →
  scan_result w ps = Ret (default 0 (find (binds w) ps)).
Proof.
  induction 1 as [|p ps Hp _ IH]; simpl; [done|].
  unfold binds at 1. rewrite bind_result_eq.
  replace ((p <? 0) || (65535 <? p)) with false by lia.
  replace (p =? 0) with false by lia.
  by destruct (refused w p || own_bound w LOOPBACK p).
Qed.

Lemma range_fallback :
  range 8001 8011 = [8001; 8002; 8003; 8004; 8005; 8006; 8007; 8008; 8009; 8010].
Proof. reflexivity. Qed.

Lemma range_fallback_valid : Forall (fun p => 0 < p <= 65535) (range 8001 8011).
Proof. rewrite range_fallback. repeat constructor; lia. Qed.

Lemma range_fallback_nonzero : Forall (fun p => p ≠ 0) (range 8001 8011).
Proof. rewrite range_fallback. repeat constructor; lia. Qed.

Lemma find_free_port_nonzero P w :
  P ≠ 0 → find_free_port P w = for_ports (P :: range 8001 8011) w.
Proof.
  intros HP. unfold find_free_port.
  by replace (P =? 0) with false by lia.
Qed.

(** The branch for 0, computed. *)
Lemma find_free_port_zero w :
  find_free_port 0 w =
    let fd := length (sockets w) in
    let tr := trace w ++ [EvSocket fd; EvBind fd LOOPBACK 0; EvClose fd] in
    match ephemeral w with
    | e :: es =>
        (Ret e, World (refused w) es (script_abspath w) (interrupt w)
                      (sockets w ++ [Socket (Some (LOOPBACK, e)) false]) (cwd w) tr)
    | [] =>
        (Raise OSError, World (refused w) [] (script_abspath w) (interrupt w)
                              (sockets w ++ [Socket None false]) (cwd w) tr)
    end.
Proof.
  unfold find_free_port, socket_new, bind, getsockname_port, close; munfold.
  wsimpl. rewrite lookup_snoc.
  destruct (ephemeral w) as [|e es] eqn:He; wsimpl.
  - rewrite lookup_snoc, insert_snoc, <- !app_assoc. done.
  - rewrite insert_snoc, lookup_snoc. wsimpl.
    rewrite lookup_snoc, insert_snoc, <- !app_assoc. done.
Qed.

(** ** Properties kept by every step *)

Section Respects.
Context (R : relation world) `{!PreOrder R}.

Lemma respects_ret {A} (a : A) : respects R (mret a).
Proof. intros w. simpl. reflexivity. Qed.

Lemma respects_raise {A} e : respects R (@raise A e).
Proof. intros w. simpl. reflexivity. Qed.

Lemma respects_bind {A B} (m : M A) (f : A → M B) :
  respects R m → (∀ a, respects R (f a)) → respects R (m ≫= f).
Proof.
  intros Hm Hf w. unfold mbind, M_bind.
  specialize (Hm w). destruct (m w) as [[a|e|] w1]; simpl in *; try done.
  by etrans; [|apply Hf].
Qed.

Lemma respects_try_except {A} (body handler : M A) e :
  respects R body → respects R handler → respects R (try_except body e handler).
Proof.
  intros Hb Hh w. unfold try_except.
  specialize (Hb w). destruct (body w) as [[a|e'|] w1]; simpl in *; try done.
  destruct (decide (e' = e)); [|done].
  by etrans; [|apply Hh].
Qed.

Lemma respects_finally {A} (body : M A) cleanup :
  respects R body → respects R cleanup → respects R (finally body cleanup).
Proof.
  intros Hb Hc w. unfold finally.
  specialize (Hb w). destruct (body w) as [[a|e'|] w1]; simpl in *; try done.
  - specialize (Hc w1). destruct (cleanup w1) as [[?|?|] w2]; simpl in *;
      by etrans.
  - specialize (Hc w1). destruct (cleanup w1) as [[?|?|] w2]; simpl in *;
      by etrans.
Qed.

Lemma respects_on_exception {A} (body : M A) cleanup :
  respects R body → respects R cleanup → respects R (on_exception body cleanup).
Proof.
  intros Hb Hc w. unfold on_exception.
  specialize (Hb w). destruct (body w) as [[a|e'|] w1]; simpl in *; try done.
  etrans; [done|].
  apply (respects_bind cleanup (fun _ => raise e')); [done|].
  intros _. apply respects_raise.
Qed.

Lemma respects_for_ports ps :
  (∀ p, respects R (probe p)) → respects R (for_ports ps).
Proof.
  intros Hp. induction ps as [|p ps IH]; simpl.
  - apply respects_ret.
  - apply respects_bind; [apply Hp|].
    intros [q|]; [apply respects_ret | apply IH].
Qed.
End Respects.

Global Instance emits_preorder P : PreOrder (emits P).
Proof.
  split.
  - intros w. exists []. by rewrite app_nil_r.
  - intros w1 w2 w3 (e1 & H1 & F1) (e2 & H2 & F2).
    exists (e1 ++ e2). rewrite H2, H1, <- app_assoc. split; [done|].
    by apply Forall_app.
Qed.

Ltac emit_one :=
  eexists [_]; split; [reflexivity | constructor; [solve [auto] | constructor]].

Global Instance same_cwd_preorder : PreOrder same_cwd.
Proof.
  split.
  - by intros w.
  - intros w1 w2 w3 H1 H2. unfold same_cwd in *. congruence.
Qed.

Section Primitives.
Context (P : event → Prop).

Lemma emits_socket_new :
  (∀ fd, P (EvSocket fd)) → respects (emits P) socket_new.
Proof. intros H w. emit_one. Qed.

Lemma emits_bind fd host port :
  P (EvBind fd host port) → respects (emits P) (bind fd host port).
Proof.
  intros H w. unfold bind.
  repeat case_match; simpl; emit_one.
Qed.

Lemma emits_getsockname_port fd : respects (emits P) (getsockname_port fd).
Proof.
  intros w. unfold getsockname_port. repeat case_match; simpl; reflexivity.
Qed.

Lemma emits_listen fd : P (EvListen fd) → respects (emits P) (listen fd).
Proof.
  intros H w. unfold listen.
  repeat case_match; simpl; emit_one.
Qed.

Lemma emits_close fd : P (EvClose fd) → respects (emits P) (close fd).
Proof. intros H w. emit_one. Qed.

Lemma emits_print text : P (EvPrint text) → respects (emits P) (print text).
Proof. intros H w. emit_one. Qed.

Lemma emits_chdir d : P (EvChdir d) → respects (emits P) (chdir d).
Proof. intros H w. emit_one. Qed.

Lemma emits_thread_start fd :
  P (EvThreadStart fd) → respects (emits P) (thread_start fd).
Proof.
  intros H w. unfold thread_start.
  repeat case_match; simpl; emit_one.
Qed.

Lemma emits_webbrowser_open url :
  P (EvBrowserOpen url) → respects (emits P) (webbrowser_open url).
Proof.
  intros H w. unfold webbrowser_open.
  repeat case_match; simpl; emit_one.
Qed.

Lemma emits_thread_join : P EvJoin → respects (emits P) thread_join.
Proof.
  intros H w. unfold thread_join.
  repeat case_match; simpl; emit_one.
Qed.

Lemma emits_shutdown fd : P (EvShutdown fd) → respects (emits P) (shutdown fd).
Proof. intros H w. emit_one. Qed.
End Primitives.

(** ** From the primitives to the routines *)

Lemma main_unfold argv w :
  main argv w =
    after_chdir (parse_args argv)
      (log (EvChdir (dirname (script_abspath w)))
           (set_cwd (dirname (script_abspath w)) w)).
Proof. reflexivity. Qed.

Ltac respects_go :=
  repeat first
    [ progress intros
    | match goal with |- respects _ (let '(_, _) := ?x in _) => destruct x end
    | apply respects_ret
    | apply respects_raise
    | solve [auto]
    | apply respects_bind
    | apply respects_finally
    | apply respects_try_except
    | apply respects_on_exception ].

Section Routines.
Context (R : relation world) `{!PreOrder R}.
Context (Hsocket : respects R socket_new).
Context (Hbind : ∀ fd p, respects R (bind fd LOOPBACK p)).
Context (Hname : ∀ fd, respects R (getsockname_port fd)).
Context (Hclose : ∀ fd, respects R (close fd)).

Lemma respects_probe p : respects R (probe p).
Proof using All. unfold probe, closing. respects_go. Qed.

Lemma respects_find_free_port preferred : respects R (find_free_port preferred).
Proof using All.
  unfold find_free_port, closing. destruct (preferred =? 0).
  - respects_go.
  - apply respects_for_ports; [done|]. apply respects_probe.
Qed.

Context (Hlisten : ∀ fd, respects R (listen fd)).

Lemma respects_serve port : respects R (serve port).
Proof using All. unfold serve, ThreadingHTTPServer. respects_go. Qed.

Context (Hprint : ∀ text, respects R (print text)).
Context (Hstart : ∀ fd, respects R (thread_start fd)).
Context (Hopen : ∀ url, respects R (webbrowser_open url)).
Context (Hjoin : respects R thread_join).
Context (Hshutdown : ∀ fd, respects R (shutdown fd)).

Lemma respects_after_chdir args_port : respects R (after_chdir args_port).
Proof using All.
  unfold after_chdir, run_server, server_close.
  pose proof respects_find_free_port. pose proof respects_serve.
  respects_go.
Qed.
End Routines.

Lemma after_chdir_emits args_port :
  respects (emits after_chdir_event) (after_chdir args_port).
Proof.
  apply respects_after_chdir; try apply _; intros.
  - by apply emits_socket_new.
  - by apply emits_bind.
  - apply emits_getsockname_port.
  - by apply emits_close.
  - by apply emits_listen.
  - by apply emits_print.
  - by apply emits_thread_start.
  - by apply emits_webbrowser_open.
  - by apply emits_thread_join.
  - by apply emits_shutdown.
Qed.

Lemma after_chdir_same_cwd args_port :
  respects same_cwd (after_chdir args_port).
Proof.
  apply respects_after_chdir; try apply _; intros; intros w;
    unfold same_cwd, bind, getsockname_port, listen, thread_start,
      webbrowser_open, thread_join;
    repeat case_match; done.
Qed.

(** ** Port selection *)

Lemma held_closed host port new :
  Forall closed new → existsb (held host port) new = false.
Proof.
  induction 1 as [|s new Hc _ IH]; simpl; [done|].
  unfold held at 1. unfold closed in Hc. by rewrite Hc, IH.
Qed.

Lemma own_bound_app_closed w w' new :
  sockets w' = sockets w ++ new → Forall closed new →
  ∀ host port, own_bound w' host port = own_bound w host port.
Proof.
  intros Hs Hnew host port. unfold own_bound. rewrite Hs, existsb_app.
  change (existsb _ new) with (existsb (held host port) new).
  by rewrite held_closed, orb_false_r.
Qed.

Lemma find_all_false (f : Z → bool) ps :
  Forall (fun p => f p = false) ps → find f ps = None.
Proof. induction 1 as [|p ps Hp _ IH]; simpl; [done|]. by rewrite Hp. Qed.

(** The sockets the routine opens are appended to the table, closed. *)
Lemma find_free_port_sockets (w : world) (P : Z) :
  ∃ new, sockets (snd (find_free_port P w)) = sockets w ++ new
         ∧ new ≠ [] ∧ Forall closed new.
Proof.
  destruct (decide (P = 0)) as [->|Hnz].
  - rewrite find_free_port_zero.
    destruct (ephemeral w) as [|e es]; simpl;
      eexists [_]; (split; [done|]); split; try done; by repeat constructor.
  - rewrite (find_free_port_nonzero P w Hnz).
    pose proof range_fallback_nonzero as Hfb.
    set (fallback := range 8001 8011) in *. clearbody fallback. simpl.
    unfold mbind, M_bind. rewrite (probe_eq w P Hnz).
    set (s := Socket (if binds w P then Some (LOOPBACK, P) else None) false).
    destruct (bind_result w P) as [[]|[]|]; simpl;
      try (exists [s]; split; [done|]; split; [done | by repeat constructor]).
    destruct (for_ports_sockets _ Hfb (after_probe w P))
      as (new & -> & Hnew).
    exists (s :: new). simpl. rewrite <- app_assoc.
    split; [done|]. split; [done | by constructor].
Qed.

(** C1, as the code has it.  For a preferred port P in 1..65535,
    find_free_port first tries to bind a probe socket to P on loopback.
    If that bind succeeds it returns P; if it fails, it returns the first
    port of 8001..8010 that binds, and 0 when neither P nor any of them
    does. *)
Theorem find_free_port_preferred_then_fallback (w : world) (P : Z) :
  0 < P <= 65535 →
  (∃ evs, trace (snd (find_free_port P w)) =
            trace w ++ EvSocket (length (sockets w))
                    :: EvBind (length (sockets w)) LOOPBACK P :: evs)
  ∧ (binds w P = true → fst (find_free_port P w) = Ret P)
  ∧ (binds w P = false →
       fst (find_free_port P w)
         = Ret (default 0 (find (binds w) (range 8001 8011)))
       ∧ (Forall (fun p => binds w p = false) (range 8001 8011) →
          fst (find_free_port P w) = Ret 0)).
Proof.
  intros Hport.
  assert (HP : P ≠ 0) by lia.
  assert (Hcases : bind_result w P = Ret tt ∨ bind_result w P = Raise OSError).
  { rewrite bind_result_eq.
    replace ((P <? 0) || (65535 <? P)) with false by lia.
    replace (P =? 0) with false by lia.
    destruct (refused w P || own_bound w LOOPBACK P); [by right | by left]. }
  rewrite (find_free_port_nonzero P w HP).
  pose proof range_fallback_nonzero as Hnz.
  pose proof range_fallback_valid as Hvalid.
  set (fallback := range 8001 8011) in *. clearbody fallback.
  assert (Hres : fst (for_ports (P :: fallback) w)
                 = scan_result w (P :: fallback)).
  { apply for_ports_result. by constructor. }
  split; [|split].
  - simpl. unfold mbind, M_bind. rewrite (probe_eq w P HP).
    destruct (bind_result w P) as [[]|[]|]; simpl;
      try (by exists [EvClose (length (sockets w))]).
    assert (Hgrow : respects (emits (fun _ => True)) (for_ports fallback)).
    { apply respects_for_ports; [apply _|]. intros p.
      apply respects_probe; try apply _; intros.
      - by apply emits_socket_new.
      - by apply emits_bind.
      - apply emits_getsockname_port.
      - by apply emits_close. }
    destruct (Hgrow (after_probe w P)) as (evs & -> & _).
    exists (EvClose (length (sockets w)) :: evs). simpl.
    by rewrite <- app_assoc.
  - unfold binds. intros Hb. rewrite Hres. simpl.
    destruct Hcases as [Hok|Hrefused]; [by rewrite Hok|].
    by rewrite Hrefused in Hb.
  - unfold binds at 1. intros Hb. rewrite Hres. simpl.
    destruct Hcases as [Hok|Hrefused]; [by rewrite Hok in Hb|].
    rewrite Hrefused, (scan_result_valid w _ Hvalid).
    split; [done|]. intros Hnone. by rewrite (find_all_false _ _ Hnone).
Qed.

Lemma find_free_port_preferred_then_fallback_witness :
  0 < 8000 <= 65535 ∧ binds busy 8000 = false
  ∧ fst (find_free_port 8000 busy) = Ret 8004.
Proof.
  split; [lia|]. split; [reflexivity|].
  destruct (find_free_port_preferred_then_fallback busy 8000) as (_ & _ & H);
    [lia|].
  exact (proj1 (H eq_refl)).
Defined.

(** C1, as the claim has it, fails for a preferred port that is no port
    number: nothing else listens, so 8001 could be bound, and the bind to
    70000 fails; find_free_port does not return 8001, it raises.  The
    same with every candidate taken: it does not return 0. *)
Lemma find_free_port_bad_port_skips_fallback :
  70000 ≠ 0
  ∧ binds quiet 70000 = false
  ∧ find (binds quiet) (range 8001 8011) = Some 8001
  ∧ fst (find_free_port 70000 quiet) ≠ Ret 8001
  ∧ Forall (fun p => binds crowded p = false) (70000 :: range 8001 8011)
  ∧ fst (find_free_port 70000 crowded) ≠ Ret 0.
Proof.
  repeat split; try done.
  rewrite range_fallback. repeat constructor.
Qed.

(** C3, as the code has it.  For a preferred port in 0..65535 the routine
    returns and raises nothing, provided the kernel has a port to hand out
    when it is asked for one (input 0); every refused bind in the loop is
    caught and the next candidate tried, so the value returned is the first
    candidate that binds, or 0. *)
Theorem find_free_port_returns_in_port_range (w : world) (P : Z) :
  0 <= P <= 65535 →
  (P = 0 → ephemeral w ≠ []) →
  ∃ p, fst (find_free_port P w) = Ret p
       ∧ (P ≠ 0 → p = default 0 (find (binds w) (P :: range 8001 8011))).
Proof.
  intros HP Heph. destruct (decide (P = 0)) as [->|Hnz].
  - rewrite find_free_port_zero.
    destruct (ephemeral w) as [|e es]; [by destruct Heph|].
    exists e. by split.
  - rewrite (find_free_port_nonzero P w Hnz).
    rewrite for_ports_result
      by (constructor; [done | apply range_fallback_nonzero]).
    rewrite scan_result_valid
      by (constructor; [lia | apply range_fallback_valid]).
    eexists. by split.
Qed.

Lemma find_free_port_returns_in_port_range_witness :
  0 <= 8002 <= 65535 ∧ fst (find_free_port 8002 busy) = Ret 8004.
Proof.
  split; [lia|].
  destruct (find_free_port_returns_in_port_range busy 8002) as (p & Hp & Hfirst);
    [lia | lia |].
  rewrite Hp. f_equal. apply Hfirst. lia.
Defined.

(** C3, as the claim has it, fails: on a machine where every port is free
    and the kernel has ports to hand out, an input above 65535, or below 0,
    makes the first bind raise OverflowError, which the loop does not
    catch. *)
Lemma find_free_port_raises_out_of_range :
  ephemeral quiet ≠ []
  ∧ fst (find_free_port 70000 quiet) = Raise OverflowError
  ∧ fst (find_free_port (-1) quiet) = Raise OverflowError.
Proof. repeat split; done. Qed.

(** C6.  With input 0 the routine binds one probe socket to port 0 on
    loopback and returns the port the kernel gave that socket, a number in
    (0, 65535]. *)
Theorem find_free_port_zero_os_assigned (w : world) :
  kernel_assigns_ports w →
  ∃ p, fst (find_free_port 0 w) = Ret p
       ∧ 0 < p <= 65535
       ∧ head (ephemeral w) = Some p
       ∧ sockets (snd (find_free_port 0 w))
           = sockets w ++ [Socket (Some (LOOPBACK, p)) false]
       ∧ trace (snd (find_free_port 0 w))
           = trace w ++ [EvSocket (length (sockets w));
                         EvBind (length (sockets w)) LOOPBACK 0;
                         EvClose (length (sockets w))].
Proof.
  intros [Hne Hvalid]. rewrite find_free_port_zero.
  destruct (ephemeral w) as [|e es]; [done|].
  exists e. simpl. by inversion Hvalid.
Qed.

Lemma find_free_port_zero_os_assigned_witness :
  kernel_assigns_ports quiet ∧ fst (find_free_port 0 quiet) = Ret 49152.
Proof.
  assert (Hk : kernel_assigns_ports quiet).
  { split; [done|]. repeat constructor; lia. }
  split; [exact Hk|].
  destruct (find_free_port_zero_os_assigned quiet Hk) as (p & Hp & _ & Hhead & _).
  rewrite Hp. f_equal. simpl in Hhead. congruence.
Defined.

(** C10.  Whatever the input, every socket find_free_port opened is closed
    when it is done, whether it returns or raises: the sockets it added to
    the table are all closed, so the process holds exactly the bound
    sockets it held before, and none at all if it held none. *)
Theorem find_free_port_closes_probes (w : world) (P : Z) :
  ∃ new, sockets (snd (find_free_port P w)) = sockets w ++ new
         ∧ new ≠ []
         ∧ Forall closed new
         ∧ (∀ host port, own_bound (snd (find_free_port P w)) host port
                         = own_bound w host port)
         ∧ (Forall closed (sockets w) →
            Forall closed (sockets (snd (find_free_port P w)))).
Proof.
  destruct (find_free_port_sockets w P) as (new & Hs & Hne & Hc).
  exists new. repeat split; try done.
  - by apply own_bound_app_closed with new.
  - intros Hw. rewrite Hs. by apply Forall_app.
Qed.

(** ** Server start-up, computed *)

Lemma serve_eq w port :
  serve port w =
    let fd := length (sockets w) in
    if (port <? 0) || (65535 <? port) then
      (Raise OverflowError,
       after_server w port (ephemeral w) (Socket None false) (EvClose fd))
    else if port =? 0 then
      match ephemeral w with
      | e :: es =>
          (Ret (fd, homepage e),
           after_server w port es (Socket (Some (LOOPBACK, e)) true) (EvListen fd))
      | [] =>
          (Raise OSError,
           after_server w port [] (Socket None false) (EvClose fd))
      end
    else if refused w port || own_bound w LOOPBACK port then
      (Raise OSError,
       after_server w port (ephemeral w) (Socket None false) (EvClose fd))
    else
      (Ret (fd, homepage port),
       after_server w port (ephemeral w)
         (Socket (Some (LOOPBACK, port)) true) (EvListen fd)).
Proof.
  unfold after_server, homepage.
  unfold serve, ThreadingHTTPServer, socket_new, bind, listen, getsockname_port,
    close; munfold; wsimpl.
  destruct ((port <? 0) || (65535 <? port)); wsimpl.
  { rewrite lookup_snoc, insert_snoc, <- !app_assoc. done. }
  rewrite lookup_snoc.
  destruct (port =? 0) eqn:Hp.
  { destruct (ephemeral w) as [|e es] eqn:He; wsimpl.
    - rewrite lookup_snoc, insert_snoc, <- !app_assoc. done.
    - rewrite insert_snoc, lookup_snoc. wsimpl.
      rewrite lookup_snoc, <- !app_assoc. done. }
  replace (own_bound _ LOOPBACK port) with (own_bound w LOOPBACK port).
  2:{ unfold own_bound; simpl. rewrite existsb_app; simpl.
      by rewrite !orb_false_r. }
  destruct (refused w port || own_bound w LOOPBACK port); wsimpl.
  - rewrite lookup_snoc, insert_snoc, <- !app_assoc. done.
  - rewrite insert_snoc, lookup_snoc. wsimpl.
    rewrite lookup_snoc, <- !app_assoc. done.
Qed.

(** What a successful [serve] leaves: the handle is the new descriptor,
    the socket is open and bound on loopback to the port the URL names. *)
Lemma serve_returns w port httpd url w' :
  serve port w = (Ret (httpd, url), w') →
  ∃ a, httpd = length (sockets w)
       ∧ url = homepage a
       ∧ (port ≠ 0 → a = port)
       ∧ (port = 0 → head (ephemeral w) = Some a)
       ∧ sockets w' = sockets w ++ [Socket (Some (LOOPBACK, a)) true]
       ∧ interrupt w' = interrupt w
       ∧ trace w' = trace w ++ [EvSocket httpd; EvBind httpd LOOPBACK port;
                                EvListen httpd].
Proof.
  rewrite serve_eq. cbv zeta.
  destruct ((port <? 0) || (65535 <? port)); [done|].
  destruct (port =? 0) eqn:Hp.
  - destruct (ephemeral w) as [|e es] eqn:He; [done|].
    intros [= <- <- <-]. exists e. repeat split; try done. lia.
  - destruct (refused w port || own_bound w LOOPBACK port); [done|].
    intros [= <- <- <-]. exists port. repeat split; try done. lia.
Qed.

(** ** The environment is not touched *)

Global Instance same_interrupt_preorder : PreOrder same_interrupt.
Proof.
  split.
  - by intros w.
  - intros w1 w2 w3 H1 H2. unfold same_interrupt in *. congruence.
Qed.

Lemma find_free_port_same_interrupt P : respects same_interrupt (find_free_port P).
Proof.
  apply respects_find_free_port; try apply _; intros; intros w;
    unfold same_interrupt, bind, getsockname_port;
    repeat case_match; done.
Qed.

(** ** Every bind is on loopback *)

(** C7.  Every bind the program makes names 127.0.0.1: this holds of the
    binds of find_free_port for any input, of the bind of serve for any
    port, and of every bind in any run of main. *)
Theorem every_bind_is_on_loopback :
  (∀ P w, emits bind_on_loopback w (snd (find_free_port P w)))
  ∧ (∀ port w, emits bind_on_loopback w (snd (serve port w)))
  ∧ (∀ argv w, emits bind_on_loopback w (snd (main argv w))).
Proof.
  assert (Hsock : respects (emits bind_on_loopback) socket_new)
    by by apply emits_socket_new.
  assert (Hbind : ∀ fd p, respects (emits bind_on_loopback) (bind fd LOOPBACK p))
    by (intros; by apply emits_bind).
  assert (Hname : ∀ fd, respects (emits bind_on_loopback) (getsockname_port fd))
    by apply emits_getsockname_port.
  assert (Hclose : ∀ fd, respects (emits bind_on_loopback) (close fd))
    by (intros; by apply emits_close).
  assert (Hlisten : ∀ fd, respects (emits bind_on_loopback) (listen fd))
    by (intros; by apply emits_listen).
  split; [|split].
  - intros P. by apply respects_find_free_port; try apply _.
  - intros port. by apply respects_serve; try apply _.
  - intros argv w. rewrite main_unfold.
    set (d := dirname (script_abspath w)).
    trans (log (EvChdir d) (set_cwd d w)).
    { exists [EvChdir d]. split; [done | by repeat constructor]. }
    apply respects_after_chdir; try apply _; try done; intros.
    + by apply emits_print.
    + by apply emits_thread_start.
    + by apply emits_webbrowser_open.
    + by apply emits_thread_join.
    + by apply emits_shutdown.
Qed.

(** ** Standard output *)

Lemma append_cons x (a b : string) : String x a +:+ b = String x (a +:+ b).
Proof. reflexivity. Qed.

Lemma append_nil (b : string) : "" +:+ b = b.
Proof. reflexivity. Qed.

Lemma append_assoc (a b c : string) : (a +:+ b) +:+ c = a +:+ (b +:+ c).
Proof.
  induction a as [|x a IH]; [done|].
  rewrite !append_cons. by f_equal.
Qed.

Lemma append_empty_r (a : string) : a +:+ "" = a.
Proof.
  induction a as [|x a IH]; [done|].
  rewrite append_cons. by f_equal.
Qed.

Lemma output_app tr1 tr2 : output (tr1 ++ tr2) = output tr1 +:+ output tr2.
Proof.
  induction tr1 as [|e tr1 IH]; simpl; [done|].
  destruct e; try done.
  by rewrite IH, !append_assoc.
Qed.

Lemma lines_nonempty s : lines s ≠ [].
Proof.
  induction s as [|c s IH]; simpl; [done|].
  destruct (Ascii.eqb c (ascii_of_nat 10)); [done|].
  by destruct (lines s).
Qed.

(** Splitting at a newline splits the lines. *)
Lemma lines_newline a b : lines (a +:+ NL +:+ b) = lines a ++ lines b.
Proof.
  induction a as [|c a IH]; [done|].
  rewrite append_cons. simpl.
  destruct (Ascii.eqb c (ascii_of_nat 10)); [by rewrite IH|].
  rewrite IH. pose proof (lines_nonempty a).
  by destruct (lines a).
Qed.

(** ** The server's life *)

Lemma after_chdir_eq args_port w :
  after_chdir args_port w =
    match find_free_port args_port w with
    | (Ret port, w1) =>
        match serve port w1 with
        | (Ret (httpd, url), w2) => run_server port httpd url w2
        | (Raise e, w2) => (Raise e, w2)
        | (Hang, w2) => (Hang, w2)
        end
    | (Raise e, w1) => (Raise e, w1)
    | (Hang, w1) => (Hang, w1)
    end.
Proof.
  unfold after_chdir, mbind, M_bind.
  destruct (find_free_port args_port w) as [[port| |] w1]; try done.
  by destruct (serve port w1) as [[[httpd url]| |] w2].
Qed.

Lemma run_server_eq port httpd url w :
  run_server port httpd url w =
    match interrupt w with
    | InterruptInThreadStart =>
        (Raise KeyboardInterrupt,
         World (refused w) (ephemeral w) (script_abspath w) (interrupt w)
               (sockets w) (cwd w)
               (trace w ++ [EvPrint ("Serving at: http://127.0.0.1:" +:+ pretty port);
                            EvPrint ("Homepage:   " +:+ url);
                            EvThreadStart httpd]))
    | NoInterrupt =>
        (Hang,
         World (refused w) (ephemeral w) (script_abspath w) (interrupt w)
               (sockets w) (cwd w)
               (trace w ++ startup_lines port httpd url ++ [EvJoin]))
    | InterruptInJoin =>
        (Ret 0,
         World (refused w) (ephemeral w) (script_abspath w) (interrupt w)
               (close_fd httpd (sockets w)) (cwd w)
               (trace w ++ (startup_lines port httpd url ++ [EvJoin])
                        ++ shutdown_events httpd))
    | InterruptInBrowserOpen =>
        (Ret 0,
         World (refused w) (ephemeral w) (script_abspath w) (interrupt w)
               (close_fd httpd (sockets w)) (cwd w)
               (trace w ++ startup_lines port httpd url ++ shutdown_events httpd))
    end.
Proof.
  unfold run_server, print, thread_start, webbrowser_open, thread_join,
    shutdown, server_close, close, close_fd, startup_lines, shutdown_events.
  munfold. wsimpl.
  destruct (interrupt w); simpl; rewrite <- ?app_assoc; simpl; done.
Qed.

Lemma shutdown_notice_line pre httpd :
  In "Shutting down..." (lines (output (pre ++ shutdown_events httpd))).
Proof.
  rewrite output_app. unfold shutdown_events. simpl.
  rewrite append_empty_r, append_assoc.
  rewrite (lines_newline (output pre) ("Shutting down..." +:+ NL)).
  apply in_or_app. right. by left.
Qed.

(** C5, as the code has it.  Once the server is up, an interrupt that
    reaches the main thread inside the [try] block (while it opens the
    browser or waits in join) makes the script print the notice, shut the
    server down, close the listening socket and exit with status 0: the
    trace ends with exactly these three steps in this order,
    "Shutting down..." is a line of the output, and every socket the run
    opened is closed. *)
Theorem interrupt_shuts_down argv w port httpd url w2 :
  started argv w port httpd url w2 →
  interrupt w = InterruptInBrowserOpen ∨ interrupt w = InterruptInJoin →
  fst (run_script argv w) = Exit 0
  ∧ (∃ evs, trace (snd (run_script argv w))
              = trace w2 ++ evs ++ [EvPrint (NL +:+ "Shutting down...");
                                    EvShutdown httpd; EvClose httpd]
            ∧ Forall (fun e => e ≠ EvShutdown httpd ∧ e ≠ EvClose httpd) evs)
  ∧ In "Shutting down..." (lines (stdout (snd (run_script argv w))))
  ∧ (∃ new, sockets (snd (run_script argv w)) = sockets w ++ new
            ∧ Forall closed new).
Proof.
  intros (w1 & Hport & Hserve) Hint.
  set (w0 := snd (chdir (dirname (script_abspath w)) w)) in *.
  pose proof (find_free_port_sockets w0 (parse_args argv)) as (new & Hs1 & _ & Hnew).
  pose proof (find_free_port_same_interrupt (parse_args argv) w0) as Hi1.
  rewrite Hport in Hs1, Hi1. simpl in Hs1. unfold same_interrupt in Hi1. simpl in Hi1.
  destruct (serve_returns _ _ _ _ _ Hserve)
    as (a & -> & -> & _ & _ & Hs2 & Hi2 & _).
  assert (Hclose : close_fd (length (sockets w1)) (sockets w2)
                   = sockets w ++ new ++ [Socket (Some (LOOPBACK, a)) false]).
  { unfold close_fd. rewrite Hs2, lookup_snoc, insert_snoc, Hs1.
    by rewrite <- app_assoc. }
  assert (Hall : Forall closed (new ++ [Socket (Some (LOOPBACK, a)) false])).
  { apply Forall_app. split; [done | by repeat constructor]. }
  unfold run_script. rewrite main_unfold.
  change (log _ (set_cwd _ w)) with w0.
  rewrite after_chdir_eq, Hport, Hserve, run_server_eq.
  rewrite Hi2, Hi1.
  unfold stdout.
  destruct Hint as [Hw|Hw]; rewrite Hw; cbn [fst snd trace sockets].
  - repeat split.
    + exists (startup_lines port (length (sockets w1)) (homepage a)).
      split; [done|]. repeat constructor; done.
    + rewrite app_assoc. apply shutdown_notice_line.
    + exists (new ++ [Socket (Some (LOOPBACK, a)) false]). by rewrite Hclose.
  - repeat split.
    + exists (startup_lines port (length (sockets w1)) (homepage a) ++ [EvJoin]).
      split; [done|]. repeat constructor; done.
    + rewrite app_assoc. apply shutdown_notice_line.
    + exists (new ++ [Socket (Some (LOOPBACK, a)) false]). by rewrite Hclose.
Qed.

Lemma interrupt_shuts_down_witness :
  interrupt busy = InterruptInJoin ∧ fst (run_script None busy) = Exit 0.
Proof.
  assert (Hint : interrupt busy = InterruptInBrowserOpen
                 ∨ interrupt busy = InterruptInJoin) by (by right).
  split; [reflexivity|].
  set (w0 := snd (chdir (dirname (script_abspath busy)) busy)).
  set (w1 := snd (find_free_port 8000 w0)).
  assert (Hup : started None busy 8004 5 (homepage 8004) (snd (serve 8004 w1))).
  { exists w1. split; vm_compute; reflexivity. }
  exact (proj1 (interrupt_shuts_down None busy 8004 5 _ _ Hup Hint)).
Defined.

(** C5, as the claim has it, fails.  Start-up has gone through (the server
    is bound and both lines are printed) when the interrupt arrives while
    the server thread is being started, before the [try]: the run ends in
    an uncaught KeyboardInterrupt, with no notice, no shutdown, and the
    listening socket still open. *)
Lemma interrupt_before_try_is_uncaught :
  started None interrupted_early 8000 1 (homepage 8000)
    (snd (serve 8000 (snd (find_free_port 8000
       (snd (chdir (dirname (script_abspath interrupted_early))
                   interrupted_early))))))
  ∧ fst (run_script None interrupted_early) = Traceback KeyboardInterrupt
  ∧ lines (stdout (snd (run_script None interrupted_early)))
      = ["Serving at: http://127.0.0.1:8000";
         "Homepage:   http://127.0.0.1:8000/index.html";
         ""]
  ∧ last (trace (snd (run_script None interrupted_early)))
      = Some (EvThreadStart 1)
  ∧ last (sockets (snd (run_script None interrupted_early)))
      = Some (Socket (Some ("127.0.0.1", 8000)) true).
Proof.
  split.
  - eexists. split; vm_compute; reflexivity.
  - vm_compute. done.
Qed.

(** C2, where the code departs from it.  With 8000 and 8001..8010 all
    taken, port selection returns 0, the server is bound by the kernel to
    49152 and is running, the Homepage line names 49152 and the Serving
    line names port 0. *)
Theorem serving_line_names_port_zero :
  fst (find_free_port 8000 (snd (chdir (dirname (script_abspath crowded_running))
                                       crowded_running))) = Ret 0
  ∧ fst (main (Some 8000) crowded_running) = Hang
  ∧ last (sockets (snd (main (Some 8000) crowded_running)))
      = Some (Socket (Some ("127.0.0.1", 49152)) true)
  ∧ lines (stdout (snd (main (Some 8000) crowded_running)))
      = ["Serving at: http://127.0.0.1:0";
         "Homepage:   http://127.0.0.1:49152/index.html";
         ""].
Proof. vm_compute. done. Qed.

(** For a port other than 0 the two lines agree: the server is bound to
    the port it was given, and the URL names it. *)
Lemma serve_nonzero_names_port w port httpd url w' :
  serve port w = (Ret (httpd, url), w') →
  port ≠ 0 →
  url = homepage port
  ∧ last (sockets w') = Some (Socket (Some (LOOPBACK, port)) true).
Proof.
  intros Hserve Hnz.
  destruct (serve_returns _ _ _ _ _ Hserve) as (a & _ & -> & Ha & _ & -> & _).
  rewrite (Ha Hnz). split; [done|]. by rewrite last_snoc.
Qed.

(** ** The working directory *)

Lemma rfind_sep_end_free name : free_of_sep name = true → rfind_sep_end name = O.
Proof.
  induction name as [|c name IH]; simpl; [done|].
  intros [Hc Hn]%andb_prop. rewrite (IH Hn).
  by destruct (Ascii.eqb c SEP).
Qed.

Lemma rfind_sep_end_join dir name :
  free_of_sep name = true →
  rfind_sep_end (dir +:+ String SEP name) = S (String.length dir).
Proof.
  intros Hn. induction dir as [|c dir IH].
  - rewrite append_nil. simpl. by rewrite (rfind_sep_end_free name Hn).
  - rewrite append_cons. simpl. by rewrite IH.
Qed.

Lemma substring_join dir name :
  String.substring 0 (S (String.length dir)) (dir +:+ String SEP name)
  = dir +:+ String SEP EmptyString.
Proof.
  induction dir as [|c dir IH].
  - rewrite !append_nil. simpl. by destruct name.
  - rewrite !append_cons. simpl. by f_equal.
Qed.

Lemma rstrip_sep_snoc dir :
  rstrip_sep (dir +:+ String SEP EmptyString) = rstrip_sep dir.
Proof.
  induction dir as [|c dir IH].
  - done.
  - rewrite append_cons. simpl. by rewrite IH.
Qed.

Lemma all_sep_snoc dir : all_sep (dir +:+ String SEP EmptyString) = all_sep dir.
Proof.
  induction dir as [|c dir IH]; [done|].
  rewrite append_cons. simpl. by rewrite IH.
Qed.

Lemma all_sep_rstrip s : all_sep s = true → rstrip_sep s = EmptyString.
Proof.
  induction s as [|c s IH]; simpl; [done|].
  intros [Hc Hs]%andb_prop. by rewrite (IH Hs), Hc.
Qed.

(** [dirname] of a file in a directory is the directory. *)
Lemma dirname_join dir name :
  is_directory_name dir → free_of_sep name = true →
  dirname (dir +:+ String SEP name) = dir.
Proof.
  intros [Hne Hstrip] Hname. unfold dirname.
  rewrite (rfind_sep_end_join dir name Hname), substring_join.
  rewrite all_sep_snoc, rstrip_sep_snoc, Hstrip.
  assert (all_sep dir = false) as ->.
  { destruct (all_sep dir) eqn:Hall; [|done].
    apply all_sep_rstrip in Hall. congruence. }
  replace (String.eqb (dir +:+ String SEP EmptyString) "") with false; [done|].
  by destruct dir.
Qed.

Lemma after_chdir_event_leaves_files_alone e :
  after_chdir_event e → leaves_files_alone e.
Proof. by destruct e. Qed.

Lemma handler_reads_only cls files r :
  Forall leaves_files_alone (Http.fs_events (Http.handle_one_request cls files r)).
Proof.
  unfold Http.handle_one_request, Http.do_GET, Http.do_HEAD.
  destruct (Http.version_word r);
    (destruct (String.eqb (Http.command r) "GET");
     [destruct (Http.send_head cls files r _) as [h [f|]]
     | try destruct (String.eqb (Http.command r) "HEAD")]);
    simpl; unfold Http.opened; destruct (files (Http.path r));
    repeat constructor.
Qed.

(** C8.  The first thing main does is to make the script's directory the
    working directory; this comes before any socket is made, it is still
    the working directory when main is done, and no later step of main,
    nor the handling of any request, changes the directory or writes a
    file. *)
Theorem main_sets_cwd_then_writes_nothing argv w dir name :
  script_abspath w = dir +:+ String SEP name →
  is_directory_name dir →
  free_of_sep name = true →
  (∃ evs, trace (snd (main argv w)) = trace w ++ EvChdir dir :: evs
          ∧ Forall leaves_files_alone evs)
  ∧ cwd (snd (main argv w)) = dir
  ∧ (∀ cls files r,
       Forall leaves_files_alone
         (Http.fs_events (Http.handle_one_request cls files r))).
Proof.
  intros Hscript Hdir Hname.
  rewrite main_unfold, Hscript, (dirname_join dir name Hdir Hname).
  set (w0 := log (EvChdir dir) (set_cwd dir w)).
  split; [|split].
  - destruct (after_chdir_emits (parse_args argv) w0) as (evs & Htr & Hevs).
    exists evs. split.
    + rewrite Htr. unfold w0. simpl. by rewrite <- app_assoc.
    + eapply Forall_impl; [exact Hevs|]. apply after_chdir_event_leaves_files_alone.
  - apply (after_chdir_same_cwd (parse_args argv) w0).
  - apply handler_reads_only.
Qed.

Lemma main_sets_cwd_then_writes_nothing_witness :
  is_directory_name "/home/dev/site"
  ∧ cwd (snd (main None quiet)) = "/home/dev/site".
Proof.
  assert (Hdir : is_directory_name "/home/dev/site") by (by split).
  split; [exact Hdir|].
  exact (proj1 (proj2 (main_sets_cwd_then_writes_nothing
                         None quiet "/home/dev/site" "start_local.py"
                         eq_refl Hdir eq_refl))).
Defined.

(** ** Running the handler *)

Module HttpRun.
Import Http.

Lemma not_simple v : v ≠ "HTTP/0.9" → String.eqb v "HTTP/0.9" = false.
Proof. intros Hv. by apply String.eqb_neq. Qed.

(** The primitives on a handler whose request version is not HTTP/0.9. *)
Section Versioned.
Context (v : string) (E : String.eqb v "HTTP/0.9" = false).
Implicit Types (b o : list string).

Lemma send_response_only_versioned code message b o :
  send_response_only code message (Handler v b o)
  = Handler v (b ++ ["HTTP/1.0 " +:+ code +:+ " " +:+ message +:+ CRLF]) o.
Proof using E. unfold send_response_only. simpl. by rewrite E. Qed.

Lemma send_header_versioned keyword value b o :
  send_header keyword value (Handler v b o)
  = Handler v (b ++ [keyword +:+ ": " +:+ value +:+ CRLF]) o.
Proof using E. unfold send_header. simpl. by rewrite E. Qed.

Lemma base_end_headers_versioned b o :
  base_end_headers (Handler v b o) = Handler v [] (o ++ b ++ [CRLF]).
Proof using E. unfold base_end_headers, flush_headers. simpl. by rewrite E. Qed.
End Versioned.

(** The primitives on a handler whose request version is HTTP/0.9. *)
Section Simple.
Context (v : string) (E : String.eqb v "HTTP/0.9" = true).
Implicit Types (b o : list string).

Lemma send_response_only_simple code message b o :
  send_response_only code message (Handler v b o) = Handler v b o.
Proof using E. unfold send_response_only. simpl. by rewrite E. Qed.

Lemma send_header_simple keyword value b o :
  send_header keyword value (Handler v b o) = Handler v b o.
Proof using E. unfold send_header. simpl. by rewrite E. Qed.

Lemma base_end_headers_simple b o :
  base_end_headers (Handler v b o) = Handler v b o.
Proof using E. unfold base_end_headers. simpl. by rewrite E. Qed.
End Simple.

Lemma write_eq data v b o :
  write data (Handler v b o) = Handler v b (o ++ [data]).
Proof. reflexivity. Qed.

(** Run the handler on a request whose version word is known, from the
    inside out. *)
Ltac run_handler Hw E :=
  unfold handle_one_request, do_GET, do_HEAD, send_head, send_error, opened,
    send_response;
  rewrite ?Hw;
  cbn [from_option id end_headers NoCacheRequestHandler SimpleHTTPRequestHandler];
  repeat case_match; simplify_eq;
  repeat first
    [ rewrite (send_response_only_versioned _ E)
    | rewrite (send_header_versioned _ E)
    | rewrite (base_end_headers_versioned _ E)
    | rewrite (send_response_only_simple _ E)
    | rewrite (send_header_simple _ E)
    | rewrite (base_end_headers_simple _ E)
    | rewrite write_eq
    | progress cbn [fst snd] ];
  cbn [sent fs_events wfile].

Ltac find_line :=
  cbv - [pretty String.length Z.of_nat];
  repeat first [ left; reflexivity | right ].
End HttpRun.

(** ** Response headers *)

Module HttpFacts.
Import Http HttpRun.






End HttpFacts.

(** * Further properties of the script *)

(** ** Port selection, beyond the claims *)

Lemma scan_result_first w ps p :
  Forall (fun q => q ≠ 0) ps →
  scan_result w ps = Ret p →
  (p ≠ 0 → ∃ before after,
      ps = before ++ p :: after
      ∧ Forall (fun q => binds w q = false) before
      ∧ binds w p = true)
  ∧ (p = 0 → Forall (fun q => binds w q = false) ps).
Proof.
  induction 1 as [|q ps Hq _ IH]; simpl.
  - intros [= <-]. split; [done | by constructor].
  - destruct (bind_result w q) as [[]|[]|] eqn:Hb; try done.
    + intros [= <-]. split; [|done]. intros _.
      exists [], ps. repeat split; [by constructor|].
      unfold binds. by rewrite Hb.
    + intros Hres. destruct (IH Hres) as [Hfound Hnone].
      assert (Hnot : binds w q = false) by (unfold binds; by rewrite Hb).
      split.
      * intros Hp. destruct (Hfound Hp) as (before & after & -> & Hbefore & Hbinds).
        exists (q :: before), after. repeat split; [by constructor | done].
      * intros Hp. constructor; [done | by apply Hnone].
Qed.

Lemma bind_result_cases w q :
  bind_result w q = Ret tt
  ∨ bind_result w q = Raise OSError
  ∨ bind_result w q = Raise OverflowError.
Proof.
  rewrite bind_result_eq.
  destruct ((q <? 0) || (65535 <? q)); [by right; right|].
  destruct (q =? 0).
  - destruct (ephemeral w); [by right; left | by left].
  - destruct (refused w q || own_bound w LOOPBACK q); [by right; left | by left].
Qed.

Lemma scan_result_raise w ps e :
  scan_result w ps = Raise e → e = OverflowError.
Proof.
  induction ps as [|q ps IH]; simpl; [done|].
  destruct (bind_result_cases w q) as [-> | [-> | ->]]; try done.
  by intros [= <-].
Qed.

Lemma bind_result_same w w' :
  refused w' = refused w →
  ephemeral w' = ephemeral w →
  (∀ host port, own_bound w' host port = own_bound w host port) →
  ∀ q, bind_result w' q = bind_result w q.
Proof.
  intros Hr He Ho q. by rewrite !bind_result_eq, Hr, He, Ho.
Qed.

Lemma scan_result_same w w' ps :
  (∀ q, bind_result w' q = bind_result w q) →
  scan_result w' ps = scan_result w ps.
Proof.
  intros Hsame. induction ps as [|q ps IH]; simpl; [done|].
  by rewrite Hsame, IH.
Qed.

Lemma find_free_port_environment w P :
  P ≠ 0 →
  refused (snd (find_free_port P w)) = refused w
  ∧ ephemeral (snd (find_free_port P w)) = ephemeral w.
Proof.
  intros HP. rewrite (find_free_port_nonzero P w HP).
  apply for_ports_environment. constructor; [done | apply range_fallback_nonzero].
Qed.

Lemma find_free_port_scan w P :
  P ≠ 0 → fst (find_free_port P w) = scan_result w (P :: range 8001 8011).
Proof.
  intros HP. rewrite (find_free_port_nonzero P w HP).
  apply for_ports_result. constructor; [done | apply range_fallback_nonzero].
Qed.

Lemma for_ports_sockets_length ps :
  Forall (fun p => p ≠ 0) ps →
  ∀ w, ∃ new, sockets (snd (for_ports ps w)) = sockets w ++ new
              ∧ (length new <= length ps)%nat.
Proof.
  induction 1 as [|p ps Hp _ IH]; intros w; simpl.
  { exists []. by rewrite app_nil_r. }
  unfold mbind, M_bind. rewrite (probe_eq w p Hp).
  set (s := Socket (if binds w p then Some (LOOPBACK, p) else None) false).
  destruct (bind_result w p) as [[]|[]|]; simpl;
    try (exists [s]; split; [done | simpl; lia]).
  destruct (IH (after_probe w p)) as (new & -> & Hlen).
  exists (s :: new); simpl. split; [by rewrite <- app_assoc | lia].
Qed.

(** X1.  A preferred port below 0 or above 65535 makes find_free_port raise
    OverflowError after a single probe: the fallback range is not scanned,
    whatever is free, and the one socket opened is closed. *)
Theorem find_free_port_out_of_range (w : world) (P : Z) :
  P < 0 ∨ 65535 < P →
  fst (find_free_port P w) = Raise OverflowError
  ∧ sockets (snd (find_free_port P w)) = sockets w ++ [Socket None false]
  ∧ trace (snd (find_free_port P w))
      = trace w ++ [EvSocket (length (sockets w));
                    EvBind (length (sockets w)) LOOPBACK P;
                    EvClose (length (sockets w))].
Proof.
  intros Hout.
  assert (HP : P ≠ 0) by lia.
  assert (Hb : bind_result w P = Raise OverflowError).
  { rewrite bind_result_eq. by replace ((P <? 0) || (65535 <? P)) with true by lia. }
  rewrite (find_free_port_nonzero P w HP).
  set (fallback := range 8001 8011). simpl.
  unfold mbind, M_bind. rewrite (probe_eq w P HP), Hb. simpl.
  unfold binds. by rewrite Hb.
Qed.

Lemma find_free_port_out_of_range_witness :
  fst (find_free_port 70000 quiet) = Raise OverflowError.
Proof.
  exact (proj1 (find_free_port_out_of_range quiet 70000 ltac:(right; lia))).
Defined.

(** X2.  For a preferred port other than 0, a port find_free_port returns
    is the first of the candidates (the preferred port, then 8001..8010)
    that a probe could bind, every candidate before it having been
    refused; and it returns 0 only when no candidate could be bound. *)
Theorem find_free_port_returns_first_bindable (w : world) (P p : Z) :
  P ≠ 0 →
  fst (find_free_port P w) = Ret p →
  (p ≠ 0 → ∃ before after,
      P :: range 8001 8011 = before ++ p :: after
      ∧ Forall (fun q => binds w q = false) before
      ∧ binds w p = true)
  ∧ (p = 0 → Forall (fun q => binds w q = false) (P :: range 8001 8011)).
Proof.
  intros HP. rewrite (find_free_port_scan w P HP).
  apply scan_result_first. constructor; [done | apply range_fallback_nonzero].
Qed.

Lemma find_free_port_returns_first_bindable_witness :
  binds busy 8004 = true ∧ binds busy 8003 = false.
Proof.
  destruct (find_free_port_returns_first_bindable busy 8000 8004
              ltac:(lia) eq_refl) as [Hfound _].
  destruct (Hfound ltac:(lia)) as (before & after & Hsplit & Hbefore & Hbinds).
  split; [exact Hbinds|]. reflexivity.
Defined.

(** X3.  Port selection for a preferred port other than 0 leaves the
    environment as it found it, so asking again gives the same answer. *)
Theorem find_free_port_repeatable (w : world) (P : Z) :
  P ≠ 0 →
  fst (find_free_port P (snd (find_free_port P w))) = fst (find_free_port P w)
  ∧ refused (snd (find_free_port P w)) = refused w
  ∧ ephemeral (snd (find_free_port P w)) = ephemeral w.
Proof.
  intros HP.
  destruct (find_free_port_environment w P HP) as [Hr He].
  destruct (find_free_port_sockets w P) as (new & Hs & _ & Hc).
  split; [|done].
  rewrite !(find_free_port_scan _ P HP).
  apply scan_result_same, bind_result_same; try done.
  by apply own_bound_app_closed with new.
Qed.

Lemma find_free_port_repeatable_witness :
  fst (find_free_port 8000 (snd (find_free_port 8000 busy))) = Ret 8004.
Proof.
  rewrite (proj1 (find_free_port_repeatable busy 8000 ltac:(lia))).
  reflexivity.
Defined.

(** X4.  find_free_port opens at least one and at most eleven probe
    sockets, and exactly one when the input is 0 or the preferred port can
    be bound. *)
Theorem find_free_port_probe_count (w : world) (P : Z) :
  ∃ new, sockets (snd (find_free_port P w)) = sockets w ++ new
         ∧ (1 <= length new <= 11)%nat
         ∧ (P = 0 ∨ binds w P = true → length new = 1%nat).
Proof.
  destruct (decide (P = 0)) as [->|HP].
  - rewrite find_free_port_zero.
    destruct (ephemeral w) as [|e es]; simpl;
      eexists [_]; repeat split; simpl; lia.
  - rewrite (find_free_port_nonzero P w HP).
    pose proof range_fallback_nonzero as Hfb.
    assert (Hlen : length (range 8001 8011) = 10%nat) by reflexivity.
    set (fallback := range 8001 8011) in *. clearbody fallback. simpl.
    unfold mbind, M_bind. rewrite (probe_eq w P HP).
    set (s := Socket (if binds w P then Some (LOOPBACK, P) else None) false).
    unfold binds.
    destruct (bind_result w P) as [[]|[]|]; simpl;
      try (exists [s]; repeat split; simpl; lia).
    destruct (for_ports_sockets_length _ Hfb (after_probe w P))
      as (new & -> & Hnew).
    exists (s :: new). simpl. rewrite <- app_assoc.
    repeat split; lia.
Qed.

(** ** Server start-up, beyond the claims *)

Lemma binds_true w p :
  binds w p = true → p ≠ 0 →
  (p <? 0) || (65535 <? p) = false
  ∧ refused w p || own_bound w LOOPBACK p = false.
Proof.
  unfold binds. rewrite bind_result_eq. intros Hb Hp.
  destruct ((p <? 0) || (65535 <? p)); [done|].
  replace (p =? 0) with false in Hb by lia.
  by destruct (refused w p || own_bound w LOOPBACK p).
Qed.

Lemma find_free_port_socket_events P :
  respects (emits socket_event) (find_free_port P).
Proof.
  apply respects_find_free_port; try apply _; intros.
  - by apply emits_socket_new.
  - by apply emits_bind.
  - apply emits_getsockname_port.
  - by apply emits_close.
Qed.

Lemma find_free_port_raises w P e :
  fst (find_free_port P w) = Raise e → e = OSError ∨ e = OverflowError.
Proof.
  destruct (decide (P = 0)) as [->|HP].
  - rewrite find_free_port_zero.
    destruct (ephemeral w); simpl; [|done]. intros [= <-]. by left.
  - rewrite (find_free_port_scan w P HP). intros He. right.
    by apply scan_result_raise in He.
Qed.

(** X5.  In an environment that stays as it is, a port other than 0 that
    find_free_port returns for a preferred port other than 0 is one the
    server can take: serve on it succeeds, binds that very port on
    loopback, and names it in the URL. *)
Theorem selected_port_can_be_served (w : world) (P p : Z) (w1 : world) :
  P ≠ 0 →
  find_free_port P w = (Ret p, w1) →
  p ≠ 0 →
  ∃ w2, serve p w1 = (Ret (length (sockets w1),
                           "http://127.0.0.1:" +:+ pretty p +:+ "/index.html"), w2)
        ∧ sockets w2 = sockets w1 ++ [Socket (Some ("127.0.0.1", p)) true].
Proof.
  intros HP Hff Hp.
  assert (Hres : scan_result w (P :: range 8001 8011) = Ret p).
  { rewrite <- (find_free_port_scan w P HP). by rewrite Hff. }
  apply scan_result_first in Hres;
    [|constructor; [done | apply range_fallback_nonzero]].
  destruct (proj1 Hres Hp) as (_ & _ & _ & _ & Hbinds).
  destruct (binds_true w p Hbinds Hp) as [Hrange Hfree].
  destruct (find_free_port_environment w P HP) as [Hr _].
  destruct (find_free_port_sockets w P) as (new & Hs & _ & Hc).
  rewrite Hff in Hr, Hs. simpl in Hr, Hs.
  rewrite serve_eq. cbv zeta. rewrite Hrange.
  replace (p =? 0) with false by lia.
  rewrite Hr, (own_bound_app_closed w w1 new Hs Hc), Hfree.
  by eexists.
Qed.

Lemma selected_port_can_be_served_witness :
  ∃ w2, serve 8004 (snd (find_free_port 8000 busy))
        = (Ret (5%nat, "http://127.0.0.1:8004/index.html"), w2).
Proof.
  assert (Hff : find_free_port 8000 busy
                = (Ret 8004, snd (find_free_port 8000 busy)))
    by (vm_compute; reflexivity).
  destruct (selected_port_can_be_served busy 8000 8004
              (snd (find_free_port 8000 busy)) ltac:(lia) Hff ltac:(lia))
    as (w2 & Hserve & _).
  exists w2. rewrite Hserve. vm_compute. reflexivity.
Defined.

(** X6.  When serve returns, the handle is an open socket bound on
    loopback, and the URL names the port that socket is bound to: the
    port asked for, or, when 0 was asked for, the one the kernel chose. *)
Theorem serve_url_names_bound_port (w : world) (port : Z) httpd url w' :
  serve port w = (Ret (httpd, url), w') →
  ∃ a, sockets w' !! httpd = Some (Socket (Some ("127.0.0.1", a)) true)
       ∧ url = "http://127.0.0.1:" +:+ pretty a +:+ "/index.html"
       ∧ (port ≠ 0 → a = port)
       ∧ (port = 0 → head (ephemeral w) = Some a).
Proof.
  intros Hserve.
  destruct (serve_returns _ _ _ _ _ Hserve) as (a & -> & -> & Hnz & Hz & Hs & _).
  exists a. repeat split; try done.
  rewrite Hs. apply lookup_snoc.
Qed.

Lemma serve_url_names_bound_port_witness :
  ∃ a, sockets (snd (serve 0 quiet)) !! 0%nat
         = Some (Socket (Some ("127.0.0.1", a)) true)
       ∧ a = 49152.
Proof.
  assert (Hserve : serve 0 quiet
                   = (Ret (0%nat, "http://127.0.0.1:49152/index.html"),
                      snd (serve 0 quiet)))
    by (vm_compute; reflexivity).
  destruct (serve_url_names_bound_port quiet 0 _ _ _ Hserve)
    as (a & Hsock & _ & _ & Hkernel).
  exists a. split; [exact Hsock|].
  specialize (Hkernel eq_refl). simpl in Hkernel. congruence.
Defined.

(** X7.  When serve fails it raises OverflowError for a port outside
    0..65535 and OSError otherwise, and the socket the constructor made is
    closed again, unbound: nothing is left listening. *)
Theorem serve_failure_closes_socket (w : world) (port : Z) e w' :
  serve port w = (Raise e, w') →
  (e = OverflowError ∧ (port < 0 ∨ 65535 < port)
   ∨ e = OSError ∧ 0 <= port <= 65535)
  ∧ sockets w' = sockets w ++ [Socket None false]
  ∧ trace w' = trace w ++ [EvSocket (length (sockets w));
                           EvBind (length (sockets w)) LOOPBACK port;
                           EvClose (length (sockets w))].
Proof.
  rewrite serve_eq. cbv zeta.
  destruct ((port <? 0) || (65535 <? port)) eqn:Hrange.
  { intros [= <- <-]. split; [left; split; [done | lia] | done]. }
  destruct (port =? 0).
  - destruct (ephemeral w); [|done].
    intros [= <- <-]. split; [right; split; [done | lia] | done].
  - destruct (refused w port || own_bound w LOOPBACK port); [|done].
    intros [= <- <-]. split; [right; split; [done | lia] | done].
Qed.

Lemma serve_failure_closes_socket_witness :
  sockets (snd (serve 8002 busy)) = [Socket None false].
Proof.
  assert (Hserve : serve 8002 busy = (Raise OSError, snd (serve 8002 busy)))
    by (vm_compute; reflexivity).
  exact (proj1 (proj2 (serve_failure_closes_socket busy 8002 OSError _ Hserve))).
Defined.

(** X14.  When every candidate is taken and find_free_port returns 0 for a
    preferred port other than 0, handing that 0 to serve works as long as
    the kernel has a port to give: the server is bound to the kernel's
    port, which port selection has not used up, and the URL names it. *)
Theorem exhausted_selection_falls_back_to_kernel (w : world) (P : Z) w1 e es :
  P ≠ 0 →
  find_free_port P w = (Ret 0, w1) →
  ephemeral w = e :: es →
  ∃ w2, serve 0 w1 = (Ret (length (sockets w1),
                           "http://127.0.0.1:" +:+ pretty e +:+ "/index.html"), w2)
        ∧ sockets w2 = sockets w1 ++ [Socket (Some ("127.0.0.1", e)) true].
Proof.
  intros HP Hff Heph.
  destruct (find_free_port_environment w P HP) as [_ He].
  rewrite Hff in He. simpl in He.
  rewrite serve_eq. cbv zeta. simpl. rewrite He, Heph.
  by eexists.
Qed.

Lemma exhausted_selection_falls_back_to_kernel_witness :
  ∃ w2, serve 0 (snd (find_free_port 8000 crowded))
        = (Ret (11%nat, "http://127.0.0.1:49152/index.html"), w2).
Proof.
  assert (Hff : find_free_port 8000 crowded
                = (Ret 0, snd (find_free_port 8000 crowded)))
    by (vm_compute; reflexivity).
  destruct (exhausted_selection_falls_back_to_kernel crowded 8000 _ 49152 [49153]
              ltac:(lia) Hff eq_refl) as (w2 & Hserve & _).
  exists w2. rewrite Hserve. vm_compute. reflexivity.
Defined.

(** X15.  With input 0, in an environment that stays as it is, the port
    find_free_port reports is one the server can then take, provided the
    kernel handed out a port number that nothing holds: the probe has
    released it, serve binds it and names it in the URL. *)
Theorem probed_kernel_port_can_be_served (w : world) e es :
  ephemeral w = e :: es →
  0 < e <= 65535 →
  refused w e = false →
  own_bound w LOOPBACK e = false →
  fst (find_free_port 0 w) = Ret e
  ∧ ∃ w2, serve e (snd (find_free_port 0 w))
          = (Ret (S (length (sockets w)),
                  "http://127.0.0.1:" +:+ pretty e +:+ "/index.html"), w2)
          ∧ sockets w2 = sockets w ++ [Socket (Some ("127.0.0.1", e)) false;
                                       Socket (Some ("127.0.0.1", e)) true].
Proof.
  intros Heph Hrange Hfree Hown.
  rewrite find_free_port_zero, Heph. cbv zeta. cbn [fst snd].
  split; [done|].
  rewrite serve_eq. cbv zeta. cbn [refused ephemeral sockets].
  replace ((e <? 0) || (65535 <? e)) with false by lia.
  replace (e =? 0) with false by lia.
  rewrite Hfree.
  replace (own_bound _ LOOPBACK e) with false.
  - simpl. rewrite length_app. simpl. rewrite Nat.add_1_r.
    eexists. split; [reflexivity|].
    unfold after_server. simpl. by rewrite <- app_assoc.
  - unfold own_bound in *. simpl. rewrite existsb_app, Hown. done.
Qed.

Lemma probed_kernel_port_can_be_served_witness :
  fst (find_free_port 0 quiet) = Ret 49152.
Proof.
  exact (proj1 (probed_kernel_port_can_be_served quiet 49152 [49153]
                  eq_refl ltac:(lia) eq_refl eq_refl)).
Defined.

(** ** The main routine, beyond the claims *)

Lemma run_script_ending argv w :
  run_script argv w = (ending (fst (main argv w)), snd (main argv w)).
Proof.
  unfold run_script. by destruct (main argv w) as [[s|e|] w'].
Qed.

Lemma main_started argv w port httpd url w2 :
  started argv w port httpd url w2 →
  main argv w = run_server port httpd url w2 ∧ interrupt w2 = interrupt w.
Proof.
  intros (w1 & Hport & Hserve).
  set (w0 := snd (chdir (dirname (script_abspath w)) w)) in *.
  pose proof (find_free_port_same_interrupt (parse_args argv) w0) as Hi1.
  rewrite Hport in Hi1. unfold same_interrupt in Hi1. simpl in Hi1.
  destruct (serve_returns _ _ _ _ _ Hserve) as (a & _ & _ & _ & _ & _ & Hi2 & _).
  split; [|congruence].
  rewrite main_unfold. change (log _ (set_cwd _ w)) with w0.
  by rewrite after_chdir_eq, Hport, Hserve.
Qed.

(** [run_server] ends in one of three ways. *)
Lemma run_server_outcome port httpd url w :
  fst (run_server port httpd url w)
  = match interrupt w with
    | NoInterrupt => Hang
    | InterruptInThreadStart => Raise KeyboardInterrupt
    | _ => Ret 0
    end.
Proof. rewrite run_server_eq. by destruct (interrupt w). Qed.



(** X9.  With the server up and no interrupt, the script does not end: the
    main thread waits in join, the two lines have been printed, the
    browser has been opened once, the server has not been shut down and
    its socket is still open. *)
Theorem without_interrupt_the_script_waits argv w port httpd url w2 :
  started argv w port httpd url w2 →
  interrupt w = NoInterrupt →
  fst (run_script argv w) = Blocked
  ∧ trace (snd (run_script argv w))
      = trace w2 ++ [EvPrint ("Serving at: http://127.0.0.1:" +:+ pretty port);
                     EvPrint ("Homepage:   " +:+ url);
                     EvThreadStart httpd;
                     EvBrowserOpen url;
                     EvJoin]
  ∧ sockets (snd (run_script argv w)) = sockets w2
  ∧ ∃ a, sockets w2 !! httpd = Some (Socket (Some ("127.0.0.1", a)) true).
Proof.
  intros Hup Hint.
  destruct (main_started _ _ _ _ _ _ Hup) as [Hmain Hi].
  destruct Hup as (w1 & _ & Hserve).
  destruct (serve_returns _ _ _ _ _ Hserve) as (a & -> & _ & _ & _ & Hs & _).
  rewrite run_script_ending, Hmain, run_server_eq, Hi, Hint. cbn [fst snd ending].
  repeat split.
  exists a. rewrite Hs. apply lookup_snoc.
Qed.

Lemma without_interrupt_the_script_waits_witness :
  fst (run_script None crowded_running) = Blocked.
Proof.
  set (w0 := snd (chdir (dirname (script_abspath crowded_running)) crowded_running)).
  set (w1 := snd (find_free_port 8000 w0)).
  assert (Hup : started None crowded_running 0 11 (homepage 49152) (snd (serve 0 w1))).
  { exists w1. split; vm_compute; reflexivity. }
  exact (proj1 (without_interrupt_the_script_waits
                  None crowded_running 0 11 _ _ Hup eq_refl)).
Defined.

Lemma run_script_exit argv w status :
  fst (run_script argv w) = Exit status →
  status = 0
  ∧ (interrupt w = InterruptInBrowserOpen ∨ interrupt w = InterruptInJoin)
  ∧ ∃ port httpd url w2,
      started argv w port httpd url w2
      ∧ ∃ evs, trace (snd (run_script argv w))
               = trace w2 ++ evs ++ [EvPrint (NL +:+ "Shutting down...");
                                     EvShutdown httpd; EvClose httpd].
Proof.
  rewrite run_script_ending. cbn [fst snd].
  destruct (find_free_port (parse_args argv)
              (snd (chdir (dirname (script_abspath w)) w)))
    as [[port|e'|] w1] eqn:Hport.
  - destruct (serve port w1) as [[[httpd url]|e'|] w2] eqn:Hserve.
    + assert (Hup : started argv w port httpd url w2) by (by exists w1).
      destruct (main_started _ _ _ _ _ _ Hup) as [-> Hi].
      rewrite run_server_eq, Hi.
      destruct (interrupt w) eqn:Hint; cbn [fst snd ending]; [done| | |done].
      * intros [= <-]. split; [done|]. split; [by left|].
        exists port, httpd, url, w2. split; [done|].
        by exists (startup_lines port httpd url).
      * intros [= <-]. split; [done|]. split; [by right|].
        exists port, httpd, url, w2. split; [done|].
        exists (startup_lines port httpd url ++ [EvJoin]).
        by rewrite <- !app_assoc.
    + rewrite main_unfold, after_chdir_eq.
      change (log _ (set_cwd _ w)) with (snd (chdir (dirname (script_abspath w)) w)).
      by rewrite Hport, Hserve.
    + rewrite main_unfold, after_chdir_eq.
      change (log _ (set_cwd _ w)) with (snd (chdir (dirname (script_abspath w)) w)).
      by rewrite Hport, Hserve.
  - rewrite main_unfold, after_chdir_eq.
    change (log _ (set_cwd _ w)) with (snd (chdir (dirname (script_abspath w)) w)).
    by rewrite Hport.
  - rewrite main_unfold, after_chdir_eq.
    change (log _ (set_cwd _ w)) with (snd (chdir (dirname (script_abspath w)) w)).
    by rewrite Hport.
Qed.



(** X11.  When port selection returned a port other than 0 and the server
    came up, the Serving line and the Homepage line are the first two
    things the script prints after that, and both name the port the
    server's socket is bound to. *)
Theorem startup_lines_name_bound_port argv w port httpd url w2 :
  started argv w port httpd url w2 →
  port ≠ 0 →
  sockets w2 !! httpd = Some (Socket (Some ("127.0.0.1", port)) true)
  ∧ ∃ evs,
      trace (snd (run_script argv w))
      = trace w2
        ++ [EvPrint ("Serving at: http://127.0.0.1:" +:+ pretty port);
            EvPrint ("Homepage:   http://127.0.0.1:" +:+ pretty port
                     +:+ "/index.html")]
        ++ evs.
Proof.
  intros Hup Hport.
  destruct (main_started _ _ _ _ _ _ Hup) as [Hmain _].
  destruct Hup as (w1 & _ & Hserve).
  destruct (serve_returns _ _ _ _ _ Hserve) as (a & -> & -> & Ha & _ & Hs & _).
  rewrite (Ha Hport) in *. split.
  - rewrite Hs. apply lookup_snoc.
  - rewrite run_script_ending, Hmain, run_server_eq.
    unfold startup_lines, homepage.
    destruct (interrupt w2); cbn [fst snd trace]; eexists; simpl; reflexivity.
Qed.

Lemma startup_lines_name_bound_port_witness :
  sockets (snd (serve 8004 (snd (find_free_port 8000
             (snd (chdir (dirname (script_abspath busy)) busy)))))) !! 5%nat
  = Some (Socket (Some ("127.0.0.1", 8004)) true).
Proof.
  set (w0 := snd (chdir (dirname (script_abspath busy)) busy)).
  set (w1 := snd (find_free_port 8000 w0)).
  assert (Hup : started None busy 8004 5 (homepage 8004) (snd (serve 8004 w1))).
  { exists w1. split; vm_compute; reflexivity. }
  exact (proj1 (startup_lines_name_bound_port None busy 8004 5 _ _ Hup ltac:(lia))).
Defined.


(** X16.  An interrupt that arrives while the server thread is being
    started, after the two prints and before the [try] block, is not
    caught: the run ends in an uncaught KeyboardInterrupt, the notice is
    not printed, neither shutdown nor server_close is called, and the
    server's socket is still open and bound. *)
Theorem interrupt_while_starting_thread_escapes argv w port httpd url w2 :
  started argv w port httpd url w2 →
  interrupt w = InterruptInThreadStart →
  fst (run_script argv w) = Traceback KeyboardInterrupt
  ∧ trace (snd (run_script argv w))
      = trace w2 ++ [EvPrint ("Serving at: http://127.0.0.1:" +:+ pretty port);
                     EvPrint ("Homepage:   " +:+ url);
                     EvThreadStart httpd]
  ∧ sockets (snd (run_script argv w)) = sockets w2
  ∧ ∃ a, sockets w2 !! httpd = Some (Socket (Some ("127.0.0.1", a)) true).
Proof.
  intros Hup Hint.
  destruct (main_started _ _ _ _ _ _ Hup) as [Hmain Hi].
  destruct Hup as (w1 & _ & Hserve).
  destruct (serve_returns _ _ _ _ _ Hserve) as (a & -> & _ & _ & _ & Hs & _).
  rewrite run_script_ending, Hmain, run_server_eq, Hi, Hint. cbn [fst snd ending].
  repeat split.
  exists a. rewrite Hs. apply lookup_snoc.
Qed.

Lemma interrupt_while_starting_thread_escapes_witness :
  fst (run_script None interrupted_early) = Traceback KeyboardInterrupt.
Proof.
  set (w0 := snd (chdir (dirname (script_abspath interrupted_early))
                        interrupted_early)).
  set (w1 := snd (find_free_port 8000 w0)).
  assert (Hup : started None interrupted_early 8000 1 (homepage 8000)
                  (snd (serve 8000 w1))).
  { exists w1. split; vm_compute; reflexivity. }
  exact (proj1 (interrupt_while_starting_thread_escapes
                  None interrupted_early 8000 1 _ _ Hup eq_refl)).
Defined.

(** ** The request handler, beyond the claims *)

Module HttpMore.
Import Http HttpRun.

Lemma simple_version r :
  from_option id default_request_version (version_word r) = "HTTP/0.9" →
  (version_word r = None ∧ String.eqb default_request_version "HTTP/0.9" = true)
  ∨ (∃ v, version_word r = Some v ∧ String.eqb v "HTTP/0.9" = true).
Proof.
  destruct (version_word r) as [v|]; simpl.
  - intros ->. right. by exists "HTTP/0.9".
  - intros _. by left.
Qed.





End HttpMore.
